(** * NumberFormatter.py: a shallow embedding of the formatting engine

    Python floats are IEEE binary64 values, modelled with the Standard
    Library's [spec_float] (precision 53, emax 1024).  A Python [str] is
    modelled by its UTF-8 encoding as a [String.string]; [len] is applied
    here to digit strings alone, where bytes and characters agree.
    Exceptions are modelled by an error result. *)

From Stdlib Require Import ZArith String Ascii List Bool Lia.
From Stdlib Require Import Floats.SpecFloat.
Import ListNotations.

Open Scope string_scope.
Open Scope Z_scope.

(** ** The Python runtime *)

Inductive exn :=
| ValueError (msg : string)
| TypeError (msg : string)
| OverflowError (msg : string).

Inductive result (A : Type) :=
| Ok (a : A)
| Raise (e : exn).
Arguments Ok {A} a.
Arguments Raise {A} e.

Definition bind {A B} (r : result A) (k : A -> result B) : result B :=
  match r with
  | Ok a => k a
  | Raise e => Raise e
  end.

Notation "x <- r ;; k" := (bind r (fun x => k))
  (at level 61, r at next level, right associativity).

(** A Python [float]: binary64. *)
Definition float := spec_float.
Definition prec : Z := 53.
Definition emax : Z := 1024.

(** [value < 0] and [abs(value)]. *)
Definition py_lt_zero (x : float) : bool := SFltb x (S754_zero false).
Definition py_abs (x : float) : float := SFabs x.

(** ** String helpers *)

Definition str1 (c : ascii) : string := String c EmptyString.

Fixpoint str_rev (s : string) : string :=
  match s with
  | EmptyString => EmptyString
  | String c s' => str_rev s' ++ str1 c
  end.

Fixpoint repeat_char (n : nat) (c : ascii) : string :=
  match n with
  | O => EmptyString
  | S n' => String c (repeat_char n' c)
  end.

(** [c in s] for a one-character [c]. *)
Fixpoint contains_char (c : ascii) (s : string) : bool :=
  match s with
  | EmptyString => false
  | String c' s' => Ascii.eqb c c' || contains_char c s'
  end.

(** [s.split(c)] for a one-character separator [c]. *)
Fixpoint py_split (c : ascii) (s : string) : list string :=
  match s with
  | EmptyString => [EmptyString]
  | String c' s' =>
      if Ascii.eqb c c' then EmptyString :: py_split c s'
      else match py_split c s' with
           | [] => [str1 c']
           | w :: ws => String c' w :: ws
           end
  end.

(** [s.replace(c, new, 1)] for a one-character [c]. *)
Fixpoint py_replace_first (c : ascii) (new s : string) : string :=
  match s with
  | EmptyString => EmptyString
  | String c' s' =>
      if Ascii.eqb c c' then new ++ s' else String c' (py_replace_first c new s')
  end.

(** [s.startswith(c)] for a one-character [c]. *)
Definition py_startswith (c : ascii) (s : string) : bool :=
  match s with
  | EmptyString => false
  | String c' _ => Ascii.eqb c c'
  end.

(** [s[1:]]. *)
Definition py_drop1 (s : string) : string :=
  match s with
  | EmptyString => EmptyString
  | String _ s' => s'
  end.

(** [Py_TOLOWER]: the lower case of an ASCII letter. *)
Definition ascii_lower (c : ascii) : ascii :=
  let n := nat_of_ascii c in
  if (Nat.leb 65 n && Nat.leb n 90)%bool then ascii_of_nat (n + 32) else c.

Fixpoint ascii_lower_str (s : string) : string :=
  match s with
  | EmptyString => EmptyString
  | String c s' => String (ascii_lower c) (ascii_lower_str s')
  end.

Definition is_digit (c : ascii) : bool :=
  let n := nat_of_ascii c in (Nat.leb 48 n && Nat.leb n 57)%bool.

Fixpoint all_digits (s : string) : bool :=
  match s with
  | EmptyString => true
  | String c s' => is_digit c && all_digits s'
  end.

(** Decimal digits of a non-negative integer (at most [fuel] steps of
    division by ten, always enough with the fuel of [Z_to_dec]). *)
Definition digit_char (d : Z) : ascii := ascii_of_nat (48 + Z.to_nat d).

Fixpoint dec_digits (fuel : nat) (n : Z) (acc : string) : string :=
  match fuel with
  | O => acc
  | S f =>
      let acc' := String (digit_char (n mod 10)) acc in
      if n <? 10 then acc' else dec_digits f (n / 10) acc'
  end.

Definition Z_to_dec (n : Z) : string :=
  dec_digits (S (Z.to_nat (Z.log2 n))) n EmptyString.

(** Left padding with ['0'] to at least [w] characters. *)
Definition zpad (w : Z) (s : string) : string :=
  repeat_char (Z.to_nat w - String.length s) "0"%char ++ s.

(** ** Unicode text

    A Python [str] is represented by its UTF-8 encoding (a lone surrogate,
    which JSON can produce, by its three-byte form).  [utf8_decode] reads
    the code points back; a byte that starts no well-formed sequence, which
    no [str] produces, is read as its negated value so that no character
    property holds of it.  The character tables below are those of
    Unicode 14.0, the database of CPython 3.11. *)

Definition byte_Z (c : ascii) : Z := Z.of_nat (nat_of_ascii c).

Definition Z_byte (z : Z) : ascii := ascii_of_nat (Z.to_nat z).

Definition is_cont (c : ascii) : bool := (128 <=? byte_Z c) && (byte_Z c <? 192).

Fixpoint utf8_decode (s : string) : list Z :=
  match s with
  | EmptyString => []
  | String c0 s1 =>
      if byte_Z c0 <? 128 then byte_Z c0 :: utf8_decode s1
      else if (192 <=? byte_Z c0) && (byte_Z c0 <? 224) then
        match s1 with
        | String c1 s2 =>
            if is_cont c1
            then (Z.land (byte_Z c0) 31 * 64 + Z.land (byte_Z c1) 63) :: utf8_decode s2
            else (- byte_Z c0) :: utf8_decode s1
        | EmptyString => (- byte_Z c0) :: utf8_decode s1
        end
      else if (224 <=? byte_Z c0) && (byte_Z c0 <? 240) then
        match s1 with
        | String c1 s2 =>
            if is_cont c1 then
              match s2 with
              | String c2 s3 =>
                  if is_cont c2
                  then (Z.land (byte_Z c0) 15 * 4096 + Z.land (byte_Z c1) 63 * 64
                        + Z.land (byte_Z c2) 63) :: utf8_decode s3
                  else (- byte_Z c0) :: utf8_decode s1
              | EmptyString => (- byte_Z c0) :: utf8_decode s1
              end
            else (- byte_Z c0) :: utf8_decode s1
        | EmptyString => (- byte_Z c0) :: utf8_decode s1
        end
      else if (240 <=? byte_Z c0) && (byte_Z c0 <? 248) then
        match s1 with
        | String c1 s2 =>
            if is_cont c1 then
              match s2 with
              | String c2 s3 =>
                  if is_cont c2 then
                    match s3 with
                    | String c3 s4 =>
                        if is_cont c3
                        then (Z.land (byte_Z c0) 7 * 262144 + Z.land (byte_Z c1) 63 * 4096
                              + Z.land (byte_Z c2) 63 * 64 + Z.land (byte_Z c3) 63)
                             :: utf8_decode s4
                        else (- byte_Z c0) :: utf8_decode s1
                    | EmptyString => (- byte_Z c0) :: utf8_decode s1
                    end
                  else (- byte_Z c0) :: utf8_decode s1
              | EmptyString => (- byte_Z c0) :: utf8_decode s1
              end
            else (- byte_Z c0) :: utf8_decode s1
        | EmptyString => (- byte_Z c0) :: utf8_decode s1
        end
      else (- byte_Z c0) :: utf8_decode s1
  end.

Definition utf8_encode_cp (c : Z) : string :=
  if c <? 0 then str1 (Z_byte (- c))
  else if c <? 128 then str1 (Z_byte c)
  else if c <? 2048 then String (Z_byte (192 + c / 64)) (str1 (Z_byte (128 + c mod 64)))
  else if c <? 65536 then
    String (Z_byte (224 + c / 4096))
      (String (Z_byte (128 + (c / 64) mod 64)) (str1 (Z_byte (128 + c mod 64))))
  else
    String (Z_byte (240 + c / 262144))
      (String (Z_byte (128 + (c / 4096) mod 64))
         (String (Z_byte (128 + (c / 64) mod 64)) (str1 (Z_byte (128 + c mod 64))))).

Fixpoint utf8_encode (l : list Z) : string :=
  match l with
  | [] => EmptyString
  | c :: r => utf8_encode_cp c ++ utf8_encode r
  end.

Fixpoint is_ascii_str (s : string) : bool :=
  match s with
  | EmptyString => true
  | String c s' => (byte_Z c <? 128) && is_ascii_str s'
  end.

Definition in_ranges (rs : list (Z * Z)) (c : Z) : bool :=
  existsb (fun r => (fst r <=? c) && (c <=? snd r)) rs.

(** [Py_UNICODE_ISSPACE]. *)
Definition unicode_spaces : list Z :=
[
   9; 10; 11; 12; 13; 28; 29; 30; 31; 32; 133; 160;
   5760; 8192; 8193; 8194; 8195; 8196; 8197; 8198; 8199; 8200; 8201; 8202;
   8232; 8233; 8239; 8287; 12288].

Definition py_unicode_isspace (c : Z) : bool := existsb (Z.eqb c) unicode_spaces.

(** [Py_UNICODE_TODECIMAL]: the decimal digits come in blocks of ten
    consecutive code points; the list holds each block's zero. *)
Definition decimal_zeros : list Z :=
[
   48; 1632; 1776; 1984; 2406; 2534; 2662; 2790; 2918; 3046;
   3174; 3302; 3430; 3558; 3664; 3792; 3872; 4160; 4240; 6112;
   6160; 6470; 6608; 6784; 6800; 6992; 7088; 7232; 7248; 42528;
   43216; 43264; 43472; 43504; 43600; 44016; 65296; 66720; 68912; 69734;
   69872; 69942; 70096; 70384; 70736; 70864; 71248; 71360; 71472; 71904;
   72016; 72784; 73040; 73120; 92768; 92864; 93008; 120782; 120792; 120802;
   120812; 120822; 123200; 123632; 125264; 130032].

Definition py_unicode_todecimal (c : Z) : option Z :=
  match find (fun z => (z <=? c) && (c <=? z + 9)) decimal_zeros with
  | Some z => Some (c - z)
  | None => None
  end.

(** [Py_UNICODE_ISPRINTABLE] above ASCII: the non-printable ranges. *)
Definition nonprintable_ranges : list (Z * Z) :=
[
   (128, 160); (173, 173); (888, 889); (896, 899); (907, 907); (909, 909);
   (930, 930); (1328, 1328); (1367, 1368); (1419, 1420); (1424, 1424); (1480, 1487);
   (1515, 1518); (1525, 1541); (1564, 1564); (1757, 1757); (1806, 1807); (1867, 1868);
   (1970, 1983); (2043, 2044); (2094, 2095); (2111, 2111); (2140, 2141); (2143, 2143);
   (2155, 2159); (2191, 2199); (2274, 2274); (2436, 2436); (2445, 2446); (2449, 2450);
   (2473, 2473); (2481, 2481); (2483, 2485); (2490, 2491); (2501, 2502); (2505, 2506);
   (2511, 2518); (2520, 2523); (2526, 2526); (2532, 2533); (2559, 2560); (2564, 2564);
   (2571, 2574); (2577, 2578); (2601, 2601); (2609, 2609); (2612, 2612); (2615, 2615);
   (2618, 2619); (2621, 2621); (2627, 2630); (2633, 2634); (2638, 2640); (2642, 2648);
   (2653, 2653); (2655, 2661); (2679, 2688); (2692, 2692); (2702, 2702); (2706, 2706);
   (2729, 2729); (2737, 2737); (2740, 2740); (2746, 2747); (2758, 2758); (2762, 2762);
   (2766, 2767); (2769, 2783); (2788, 2789); (2802, 2808); (2816, 2816); (2820, 2820);
   (2829, 2830); (2833, 2834); (2857, 2857); (2865, 2865); (2868, 2868); (2874, 2875);
   (2885, 2886); (2889, 2890); (2894, 2900); (2904, 2907); (2910, 2910); (2916, 2917);
   (2936, 2945); (2948, 2948); (2955, 2957); (2961, 2961); (2966, 2968); (2971, 2971);
   (2973, 2973); (2976, 2978); (2981, 2983); (2987, 2989); (3002, 3005); (3011, 3013);
   (3017, 3017); (3022, 3023); (3025, 3030); (3032, 3045); (3067, 3071); (3085, 3085);
   (3089, 3089); (3113, 3113); (3130, 3131); (3141, 3141); (3145, 3145); (3150, 3156);
   (3159, 3159); (3163, 3164); (3166, 3167); (3172, 3173); (3184, 3190); (3213, 3213);
   (3217, 3217); (3241, 3241); (3252, 3252); (3258, 3259); (3269, 3269); (3273, 3273);
   (3278, 3284); (3287, 3292); (3295, 3295); (3300, 3301); (3312, 3312); (3315, 3327);
   (3341, 3341); (3345, 3345); (3397, 3397); (3401, 3401); (3408, 3411); (3428, 3429);
   (3456, 3456); (3460, 3460); (3479, 3481); (3506, 3506); (3516, 3516); (3518, 3519);
   (3527, 3529); (3531, 3534); (3541, 3541); (3543, 3543); (3552, 3557); (3568, 3569);
   (3573, 3584); (3643, 3646); (3676, 3712); (3715, 3715); (3717, 3717); (3723, 3723);
   (3748, 3748); (3750, 3750); (3774, 3775); (3781, 3781); (3783, 3783); (3790, 3791);
   (3802, 3803); (3808, 3839); (3912, 3912); (3949, 3952); (3992, 3992); (4029, 4029);
   (4045, 4045); (4059, 4095); (4294, 4294); (4296, 4300); (4302, 4303); (4681, 4681);
   (4686, 4687); (4695, 4695); (4697, 4697); (4702, 4703); (4745, 4745); (4750, 4751);
   (4785, 4785); (4790, 4791); (4799, 4799); (4801, 4801); (4806, 4807); (4823, 4823);
   (4881, 4881); (4886, 4887); (4955, 4956); (4989, 4991); (5018, 5023); (5110, 5111);
   (5118, 5119); (5760, 5760); (5789, 5791); (5881, 5887); (5910, 5918); (5943, 5951);
   (5972, 5983); (5997, 5997); (6001, 6001); (6004, 6015); (6110, 6111); (6122, 6127);
   (6138, 6143); (6158, 6158); (6170, 6175); (6265, 6271); (6315, 6319); (6390, 6399);
   (6431, 6431); (6444, 6447); (6460, 6463); (6465, 6467); (6510, 6511); (6517, 6527);
   (6572, 6575); (6602, 6607); (6619, 6621); (6684, 6685); (6751, 6751); (6781, 6782);
   (6794, 6799); (6810, 6815); (6830, 6831); (6863, 6911); (6989, 6991); (7039, 7039);
   (7156, 7163); (7224, 7226); (7242, 7244); (7305, 7311); (7355, 7356); (7368, 7375);
   (7419, 7423); (7958, 7959); (7966, 7967); (8006, 8007); (8014, 8015); (8024, 8024);
   (8026, 8026); (8028, 8028); (8030, 8030); (8062, 8063); (8117, 8117); (8133, 8133);
   (8148, 8149); (8156, 8156); (8176, 8177); (8181, 8181); (8191, 8207); (8232, 8239);
   (8287, 8303); (8306, 8307); (8335, 8335); (8349, 8351); (8385, 8399); (8433, 8447);
   (8588, 8591); (9255, 9279); (9291, 9311); (11124, 11125); (11158, 11158); (11508, 11512);
   (11558, 11558); (11560, 11564); (11566, 11567); (11624, 11630); (11633, 11646); (11671, 11679);
   (11687, 11687); (11695, 11695); (11703, 11703); (11711, 11711); (11719, 11719); (11727, 11727);
   (11735, 11735); (11743, 11743); (11870, 11903); (11930, 11930); (12020, 12031); (12246, 12271);
   (12284, 12288); (12352, 12352); (12439, 12440); (12544, 12548); (12592, 12592); (12687, 12687);
   (12772, 12783); (12831, 12831); (42125, 42127); (42183, 42191); (42540, 42559); (42744, 42751);
   (42955, 42959); (42962, 42962); (42964, 42964); (42970, 42993); (43053, 43055); (43066, 43071);
   (43128, 43135); (43206, 43213); (43226, 43231); (43348, 43358); (43389, 43391); (43470, 43470);
   (43482, 43485); (43519, 43519); (43575, 43583); (43598, 43599); (43610, 43611); (43715, 43738);
   (43767, 43776); (43783, 43784); (43791, 43792); (43799, 43807); (43815, 43815); (43823, 43823);
   (43884, 43887); (44014, 44015); (44026, 44031); (55204, 55215); (55239, 55242); (55292, 63743);
   (64110, 64111); (64218, 64255); (64263, 64274); (64280, 64284); (64311, 64311); (64317, 64317);
   (64319, 64319); (64322, 64322); (64325, 64325); (64451, 64466); (64912, 64913); (64968, 64974);
   (64976, 65007); (65050, 65055); (65107, 65107); (65127, 65127); (65132, 65135); (65141, 65141);
   (65277, 65280); (65471, 65473); (65480, 65481); (65488, 65489); (65496, 65497); (65501, 65503);
   (65511, 65511); (65519, 65531); (65534, 65535); (65548, 65548); (65575, 65575); (65595, 65595);
   (65598, 65598); (65614, 65615); (65630, 65663); (65787, 65791); (65795, 65798); (65844, 65846);
   (65935, 65935); (65949, 65951); (65953, 65999); (66046, 66175); (66205, 66207); (66257, 66271);
   (66300, 66303); (66340, 66348); (66379, 66383); (66427, 66431); (66462, 66462); (66500, 66503);
   (66518, 66559); (66718, 66719); (66730, 66735); (66772, 66775); (66812, 66815); (66856, 66863);
   (66916, 66926); (66939, 66939); (66955, 66955); (66963, 66963); (66966, 66966); (66978, 66978);
   (66994, 66994); (67002, 67002); (67005, 67071); (67383, 67391); (67414, 67423); (67432, 67455);
   (67462, 67462); (67505, 67505); (67515, 67583); (67590, 67591); (67593, 67593); (67638, 67638);
   (67641, 67643); (67645, 67646); (67670, 67670); (67743, 67750); (67760, 67807); (67827, 67827);
   (67830, 67834); (67868, 67870); (67898, 67902); (67904, 67967); (68024, 68027); (68048, 68049);
   (68100, 68100); (68103, 68107); (68116, 68116); (68120, 68120); (68150, 68151); (68155, 68158);
   (68169, 68175); (68185, 68191); (68256, 68287); (68327, 68330); (68343, 68351); (68406, 68408);
   (68438, 68439); (68467, 68471); (68498, 68504); (68509, 68520); (68528, 68607); (68681, 68735);
   (68787, 68799); (68851, 68857); (68904, 68911); (68922, 69215); (69247, 69247); (69290, 69290);
   (69294, 69295); (69298, 69375); (69416, 69423); (69466, 69487); (69514, 69551); (69580, 69599);
   (69623, 69631); (69710, 69713); (69750, 69758); (69821, 69821); (69827, 69839); (69865, 69871);
   (69882, 69887); (69941, 69941); (69960, 69967); (70007, 70015); (70112, 70112); (70133, 70143);
   (70162, 70162); (70207, 70271); (70279, 70279); (70281, 70281); (70286, 70286); (70302, 70302);
   (70314, 70319); (70379, 70383); (70394, 70399); (70404, 70404); (70413, 70414); (70417, 70418);
   (70441, 70441); (70449, 70449); (70452, 70452); (70458, 70458); (70469, 70470); (70473, 70474);
   (70478, 70479); (70481, 70486); (70488, 70492); (70500, 70501); (70509, 70511); (70517, 70655);
   (70748, 70748); (70754, 70783); (70856, 70863); (70874, 71039); (71094, 71095); (71134, 71167);
   (71237, 71247); (71258, 71263); (71277, 71295); (71354, 71359); (71370, 71423); (71451, 71452);
   (71468, 71471); (71495, 71679); (71740, 71839); (71923, 71934); (71943, 71944); (71946, 71947);
   (71956, 71956); (71959, 71959); (71990, 71990); (71993, 71994); (72007, 72015); (72026, 72095);
   (72104, 72105); (72152, 72153); (72165, 72191); (72264, 72271); (72355, 72367); (72441, 72703);
   (72713, 72713); (72759, 72759); (72774, 72783); (72813, 72815); (72848, 72849); (72872, 72872);
   (72887, 72959); (72967, 72967); (72970, 72970); (73015, 73017); (73019, 73019); (73022, 73022);
   (73032, 73039); (73050, 73055); (73062, 73062); (73065, 73065); (73103, 73103); (73106, 73106);
   (73113, 73119); (73130, 73439); (73465, 73647); (73649, 73663); (73714, 73726); (74650, 74751);
   (74863, 74863); (74869, 74879); (75076, 77711); (77811, 77823); (78895, 82943); (83527, 92159);
   (92729, 92735); (92767, 92767); (92778, 92781); (92863, 92863); (92874, 92879); (92910, 92911);
   (92918, 92927); (92998, 93007); (93018, 93018); (93026, 93026); (93048, 93052); (93072, 93759);
   (93851, 93951); (94027, 94030); (94088, 94094); (94112, 94175); (94181, 94191); (94194, 94207);
   (100344, 100351); (101590, 101631); (101641, 110575); (110580, 110580); (110588, 110588); (110591, 110591);
   (110883, 110927); (110931, 110947); (110952, 110959); (111356, 113663); (113771, 113775); (113789, 113791);
   (113801, 113807); (113818, 113819); (113824, 118527); (118574, 118575); (118599, 118607); (118724, 118783);
   (119030, 119039); (119079, 119080); (119155, 119162); (119275, 119295); (119366, 119519); (119540, 119551);
   (119639, 119647); (119673, 119807); (119893, 119893); (119965, 119965); (119968, 119969); (119971, 119972);
   (119975, 119976); (119981, 119981); (119994, 119994); (119996, 119996); (120004, 120004); (120070, 120070);
   (120075, 120076); (120085, 120085); (120093, 120093); (120122, 120122); (120127, 120127); (120133, 120133);
   (120135, 120137); (120145, 120145); (120486, 120487); (120780, 120781); (121484, 121498); (121504, 121504);
   (121520, 122623); (122655, 122879); (122887, 122887); (122905, 122906); (122914, 122914); (122917, 122917);
   (122923, 123135); (123181, 123183); (123198, 123199); (123210, 123213); (123216, 123535); (123567, 123583);
   (123642, 123646); (123648, 124895); (124903, 124903); (124908, 124908); (124911, 124911); (124927, 124927);
   (125125, 125126); (125143, 125183); (125260, 125263); (125274, 125277); (125280, 126064); (126133, 126208);
   (126270, 126463); (126468, 126468); (126496, 126496); (126499, 126499); (126501, 126502); (126504, 126504);
   (126515, 126515); (126520, 126520); (126522, 126522); (126524, 126529); (126531, 126534); (126536, 126536);
   (126538, 126538); (126540, 126540); (126544, 126544); (126547, 126547); (126549, 126550); (126552, 126552);
   (126554, 126554); (126556, 126556); (126558, 126558); (126560, 126560); (126563, 126563); (126565, 126566);
   (126571, 126571); (126579, 126579); (126584, 126584); (126589, 126589); (126591, 126591); (126602, 126602);
   (126620, 126624); (126628, 126628); (126634, 126634); (126652, 126703); (126706, 126975); (127020, 127023);
   (127124, 127135); (127151, 127152); (127168, 127168); (127184, 127184); (127222, 127231); (127406, 127461);
   (127491, 127503); (127548, 127551); (127561, 127567); (127570, 127583); (127590, 127743); (128728, 128732);
   (128749, 128751); (128765, 128767); (128884, 128895); (128985, 128991); (129004, 129007); (129009, 129023);
   (129036, 129039); (129096, 129103); (129114, 129119); (129160, 129167); (129198, 129199); (129202, 129279);
   (129620, 129631); (129646, 129647); (129653, 129655); (129661, 129663); (129671, 129679); (129709, 129711);
   (129723, 129727); (129734, 129743); (129754, 129759); (129768, 129775); (129783, 129791); (129939, 129939);
   (129995, 130031); (130042, 131071); (173792, 173823); (177977, 177983); (178206, 178207); (183970, 183983);
   (191457, 194559); (195102, 196607); (201547, 917759); (918000, 1114111)].

(** [_PyUnicode_ToLowerFull] above ASCII, outside U+0130 (two code points)
    and U+03A3 (context dependent): runs [(lo, hi, step, delta)] mapping
    every [step]-th code point of [lo..hi] to itself plus [delta]. *)
Definition lower_runs : list (Z * Z * Z * Z) :=
[
   (192, 214, 1, 32); (216, 222, 1, 32); (256, 302, 2, 1); (306, 310, 2, 1);
   (313, 327, 2, 1); (330, 374, 2, 1); (376, 376, 1, -121); (377, 381, 2, 1);
   (385, 385, 1, 210); (386, 388, 2, 1); (390, 390, 1, 206); (391, 391, 1, 1);
   (393, 394, 1, 205); (395, 395, 1, 1); (398, 398, 1, 79); (399, 399, 1, 202);
   (400, 400, 1, 203); (401, 401, 1, 1); (403, 403, 1, 205); (404, 404, 1, 207);
   (406, 406, 1, 211); (407, 407, 1, 209); (408, 408, 1, 1); (412, 412, 1, 211);
   (413, 413, 1, 213); (415, 415, 1, 214); (416, 420, 2, 1); (422, 422, 1, 218);
   (423, 423, 1, 1); (425, 425, 1, 218); (428, 428, 1, 1); (430, 430, 1, 218);
   (431, 431, 1, 1); (433, 434, 1, 217); (435, 437, 2, 1); (439, 439, 1, 219);
   (440, 440, 1, 1); (444, 444, 1, 1); (452, 452, 1, 2); (453, 453, 1, 1);
   (455, 455, 1, 2); (456, 456, 1, 1); (458, 458, 1, 2); (459, 475, 2, 1);
   (478, 494, 2, 1); (497, 497, 1, 2); (498, 500, 2, 1); (502, 502, 1, -97);
   (503, 503, 1, -56); (504, 542, 2, 1); (544, 544, 1, -130); (546, 562, 2, 1);
   (570, 570, 1, 10795); (571, 571, 1, 1); (573, 573, 1, -163); (574, 574, 1, 10792);
   (577, 577, 1, 1); (579, 579, 1, -195); (580, 580, 1, 69); (581, 581, 1, 71);
   (582, 590, 2, 1); (880, 882, 2, 1); (886, 886, 1, 1); (895, 895, 1, 116);
   (902, 902, 1, 38); (904, 906, 1, 37); (908, 908, 1, 64); (910, 911, 1, 63);
   (913, 929, 1, 32); (932, 939, 1, 32); (975, 975, 1, 8); (984, 1006, 2, 1);
   (1012, 1012, 1, -60); (1015, 1015, 1, 1); (1017, 1017, 1, -7); (1018, 1018, 1, 1);
   (1021, 1023, 1, -130); (1024, 1039, 1, 80); (1040, 1071, 1, 32); (1120, 1152, 2, 1);
   (1162, 1214, 2, 1); (1216, 1216, 1, 15); (1217, 1229, 2, 1); (1232, 1326, 2, 1);
   (1329, 1366, 1, 48); (4256, 4293, 1, 7264); (4295, 4295, 1, 7264); (4301, 4301, 1, 7264);
   (5024, 5103, 1, 38864); (5104, 5109, 1, 8); (7312, 7354, 1, -3008); (7357, 7359, 1, -3008);
   (7680, 7828, 2, 1); (7838, 7838, 1, -7615); (7840, 7934, 2, 1); (7944, 7951, 1, -8);
   (7960, 7965, 1, -8); (7976, 7983, 1, -8); (7992, 7999, 1, -8); (8008, 8013, 1, -8);
   (8025, 8031, 2, -8); (8040, 8047, 1, -8); (8072, 8079, 1, -8); (8088, 8095, 1, -8);
   (8104, 8111, 1, -8); (8120, 8121, 1, -8); (8122, 8123, 1, -74); (8124, 8124, 1, -9);
   (8136, 8139, 1, -86); (8140, 8140, 1, -9); (8152, 8153, 1, -8); (8154, 8155, 1, -100);
   (8168, 8169, 1, -8); (8170, 8171, 1, -112); (8172, 8172, 1, -7); (8184, 8185, 1, -128);
   (8186, 8187, 1, -126); (8188, 8188, 1, -9); (8486, 8486, 1, -7517); (8490, 8490, 1, -8383);
   (8491, 8491, 1, -8262); (8498, 8498, 1, 28); (8544, 8559, 1, 16); (8579, 8579, 1, 1);
   (9398, 9423, 1, 26); (11264, 11311, 1, 48); (11360, 11360, 1, 1); (11362, 11362, 1, -10743);
   (11363, 11363, 1, -3814); (11364, 11364, 1, -10727); (11367, 11371, 2, 1); (11373, 11373, 1, -10780);
   (11374, 11374, 1, -10749); (11375, 11375, 1, -10783); (11376, 11376, 1, -10782); (11378, 11378, 1, 1);
   (11381, 11381, 1, 1); (11390, 11391, 1, -10815); (11392, 11490, 2, 1); (11499, 11501, 2, 1);
   (11506, 11506, 1, 1); (42560, 42604, 2, 1); (42624, 42650, 2, 1); (42786, 42798, 2, 1);
   (42802, 42862, 2, 1); (42873, 42875, 2, 1); (42877, 42877, 1, -35332); (42878, 42886, 2, 1);
   (42891, 42891, 1, 1); (42893, 42893, 1, -42280); (42896, 42898, 2, 1); (42902, 42920, 2, 1);
   (42922, 42922, 1, -42308); (42923, 42923, 1, -42319); (42924, 42924, 1, -42315); (42925, 42925, 1, -42305);
   (42926, 42926, 1, -42308); (42928, 42928, 1, -42258); (42929, 42929, 1, -42282); (42930, 42930, 1, -42261);
   (42931, 42931, 1, 928); (42932, 42946, 2, 1); (42948, 42948, 1, -48); (42949, 42949, 1, -42307);
   (42950, 42950, 1, -35384); (42951, 42953, 2, 1); (42960, 42960, 1, 1); (42966, 42968, 2, 1);
   (42997, 42997, 1, 1); (65313, 65338, 1, 32); (66560, 66599, 1, 40); (66736, 66771, 1, 40);
   (66928, 66938, 1, 39); (66940, 66954, 1, 39); (66956, 66962, 1, 39); (66964, 66965, 1, 39);
   (68736, 68786, 1, 64); (71840, 71871, 1, 32); (93760, 93791, 1, 32); (125184, 125217, 1, 34)].

(** [_PyUnicode_IsCaseIgnorable]. *)
Definition case_ignorable_ranges : list (Z * Z) :=
[
   (39, 39); (46, 46); (58, 58); (94, 94); (96, 96); (168, 168);
   (173, 173); (175, 175); (180, 180); (183, 184); (688, 879); (884, 885);
   (890, 890); (900, 901); (903, 903); (1155, 1161); (1369, 1369); (1375, 1375);
   (1425, 1469); (1471, 1471); (1473, 1474); (1476, 1477); (1479, 1479); (1524, 1524);
   (1536, 1541); (1552, 1562); (1564, 1564); (1600, 1600); (1611, 1631); (1648, 1648);
   (1750, 1757); (1759, 1768); (1770, 1773); (1807, 1807); (1809, 1809); (1840, 1866);
   (1958, 1968); (2027, 2037); (2042, 2042); (2045, 2045); (2070, 2093); (2137, 2139);
   (2184, 2184); (2192, 2193); (2200, 2207); (2249, 2306); (2362, 2362); (2364, 2364);
   (2369, 2376); (2381, 2381); (2385, 2391); (2402, 2403); (2417, 2417); (2433, 2433);
   (2492, 2492); (2497, 2500); (2509, 2509); (2530, 2531); (2558, 2558); (2561, 2562);
   (2620, 2620); (2625, 2626); (2631, 2632); (2635, 2637); (2641, 2641); (2672, 2673);
   (2677, 2677); (2689, 2690); (2748, 2748); (2753, 2757); (2759, 2760); (2765, 2765);
   (2786, 2787); (2810, 2815); (2817, 2817); (2876, 2876); (2879, 2879); (2881, 2884);
   (2893, 2893); (2901, 2902); (2914, 2915); (2946, 2946); (3008, 3008); (3021, 3021);
   (3072, 3072); (3076, 3076); (3132, 3132); (3134, 3136); (3142, 3144); (3146, 3149);
   (3157, 3158); (3170, 3171); (3201, 3201); (3260, 3260); (3263, 3263); (3270, 3270);
   (3276, 3277); (3298, 3299); (3328, 3329); (3387, 3388); (3393, 3396); (3405, 3405);
   (3426, 3427); (3457, 3457); (3530, 3530); (3538, 3540); (3542, 3542); (3633, 3633);
   (3636, 3642); (3654, 3662); (3761, 3761); (3764, 3772); (3782, 3782); (3784, 3789);
   (3864, 3865); (3893, 3893); (3895, 3895); (3897, 3897); (3953, 3966); (3968, 3972);
   (3974, 3975); (3981, 3991); (3993, 4028); (4038, 4038); (4141, 4144); (4146, 4151);
   (4153, 4154); (4157, 4158); (4184, 4185); (4190, 4192); (4209, 4212); (4226, 4226);
   (4229, 4230); (4237, 4237); (4253, 4253); (4348, 4348); (4957, 4959); (5906, 5908);
   (5938, 5939); (5970, 5971); (6002, 6003); (6068, 6069); (6071, 6077); (6086, 6086);
   (6089, 6099); (6103, 6103); (6109, 6109); (6155, 6159); (6211, 6211); (6277, 6278);
   (6313, 6313); (6432, 6434); (6439, 6440); (6450, 6450); (6457, 6459); (6679, 6680);
   (6683, 6683); (6742, 6742); (6744, 6750); (6752, 6752); (6754, 6754); (6757, 6764);
   (6771, 6780); (6783, 6783); (6823, 6823); (6832, 6862); (6912, 6915); (6964, 6964);
   (6966, 6970); (6972, 6972); (6978, 6978); (7019, 7027); (7040, 7041); (7074, 7077);
   (7080, 7081); (7083, 7085); (7142, 7142); (7144, 7145); (7149, 7149); (7151, 7153);
   (7212, 7219); (7222, 7223); (7288, 7293); (7376, 7378); (7380, 7392); (7394, 7400);
   (7405, 7405); (7412, 7412); (7416, 7417); (7468, 7530); (7544, 7544); (7579, 7679);
   (8125, 8125); (8127, 8129); (8141, 8143); (8157, 8159); (8173, 8175); (8189, 8190);
   (8203, 8207); (8216, 8217); (8228, 8228); (8231, 8231); (8234, 8238); (8288, 8292);
   (8294, 8303); (8305, 8305); (8319, 8319); (8336, 8348); (8400, 8432); (11388, 11389);
   (11503, 11505); (11631, 11631); (11647, 11647); (11744, 11775); (11823, 11823); (12293, 12293);
   (12330, 12333); (12337, 12341); (12347, 12347); (12441, 12446); (12540, 12542); (40981, 40981);
   (42232, 42237); (42508, 42508); (42607, 42610); (42612, 42621); (42623, 42623); (42652, 42655);
   (42736, 42737); (42752, 42785); (42864, 42864); (42888, 42890); (42994, 42996); (43000, 43001);
   (43010, 43010); (43014, 43014); (43019, 43019); (43045, 43046); (43052, 43052); (43204, 43205);
   (43232, 43249); (43263, 43263); (43302, 43309); (43335, 43345); (43392, 43394); (43443, 43443);
   (43446, 43449); (43452, 43453); (43471, 43471); (43493, 43494); (43561, 43566); (43569, 43570);
   (43573, 43574); (43587, 43587); (43596, 43596); (43632, 43632); (43644, 43644); (43696, 43696);
   (43698, 43700); (43703, 43704); (43710, 43711); (43713, 43713); (43741, 43741); (43756, 43757);
   (43763, 43764); (43766, 43766); (43867, 43871); (43881, 43883); (44005, 44005); (44008, 44008);
   (44013, 44013); (64286, 64286); (64434, 64450); (65024, 65039); (65043, 65043); (65056, 65071);
   (65106, 65106); (65109, 65109); (65279, 65279); (65287, 65287); (65294, 65294); (65306, 65306);
   (65342, 65342); (65344, 65344); (65392, 65392); (65438, 65439); (65507, 65507); (65529, 65531);
   (66045, 66045); (66272, 66272); (66422, 66426); (67456, 67461); (67463, 67504); (67506, 67514);
   (68097, 68099); (68101, 68102); (68108, 68111); (68152, 68154); (68159, 68159); (68325, 68326);
   (68900, 68903); (69291, 69292); (69446, 69456); (69506, 69509); (69633, 69633); (69688, 69702);
   (69744, 69744); (69747, 69748); (69759, 69761); (69811, 69814); (69817, 69818); (69821, 69821);
   (69826, 69826); (69837, 69837); (69888, 69890); (69927, 69931); (69933, 69940); (70003, 70003);
   (70016, 70017); (70070, 70078); (70089, 70092); (70095, 70095); (70191, 70193); (70196, 70196);
   (70198, 70199); (70206, 70206); (70367, 70367); (70371, 70378); (70400, 70401); (70459, 70460);
   (70464, 70464); (70502, 70508); (70512, 70516); (70712, 70719); (70722, 70724); (70726, 70726);
   (70750, 70750); (70835, 70840); (70842, 70842); (70847, 70848); (70850, 70851); (71090, 71093);
   (71100, 71101); (71103, 71104); (71132, 71133); (71219, 71226); (71229, 71229); (71231, 71232);
   (71339, 71339); (71341, 71341); (71344, 71349); (71351, 71351); (71453, 71455); (71458, 71461);
   (71463, 71467); (71727, 71735); (71737, 71738); (71995, 71996); (71998, 71998); (72003, 72003);
   (72148, 72151); (72154, 72155); (72160, 72160); (72193, 72202); (72243, 72248); (72251, 72254);
   (72263, 72263); (72273, 72278); (72281, 72283); (72330, 72342); (72344, 72345); (72752, 72758);
   (72760, 72765); (72767, 72767); (72850, 72871); (72874, 72880); (72882, 72883); (72885, 72886);
   (73009, 73014); (73018, 73018); (73020, 73021); (73023, 73029); (73031, 73031); (73104, 73105);
   (73109, 73109); (73111, 73111); (73459, 73460); (78896, 78904); (92912, 92916); (92976, 92982);
   (92992, 92995); (94031, 94031); (94095, 94111); (94176, 94177); (94179, 94180); (110576, 110579);
   (110581, 110587); (110589, 110590); (113821, 113822); (113824, 113827); (118528, 118573); (118576, 118598);
   (119143, 119145); (119155, 119170); (119173, 119179); (119210, 119213); (119362, 119364); (121344, 121398);
   (121403, 121452); (121461, 121461); (121476, 121476); (121499, 121503); (121505, 121519); (122880, 122886);
   (122888, 122904); (122907, 122913); (122915, 122916); (122918, 122922); (123184, 123197); (123566, 123566);
   (123628, 123631); (125136, 125142); (125252, 125259); (127995, 127999); (917505, 917505); (917536, 917631);
   (917760, 917999)].

(** [_PyUnicode_IsCased] on the characters that are not case-ignorable,
    the only ones the Final_Sigma test of [str.lower] asks it about. *)
Definition cased_ranges : list (Z * Z) :=
[
   (65, 90); (97, 122); (170, 170); (181, 181); (186, 186); (192, 214);
   (216, 246); (248, 442); (444, 447); (452, 659); (661, 687); (880, 883);
   (886, 887); (891, 893); (895, 895); (902, 902); (904, 906); (908, 908);
   (910, 929); (931, 1013); (1015, 1153); (1162, 1327); (1329, 1366); (1376, 1416);
   (4256, 4293); (4295, 4295); (4301, 4301); (4304, 4346); (4349, 4351); (5024, 5109);
   (5112, 5117); (7296, 7304); (7312, 7354); (7357, 7359); (7424, 7467); (7531, 7543);
   (7545, 7578); (7680, 7957); (7960, 7965); (7968, 8005); (8008, 8013); (8016, 8023);
   (8025, 8025); (8027, 8027); (8029, 8029); (8031, 8061); (8064, 8116); (8118, 8124);
   (8126, 8126); (8130, 8132); (8134, 8140); (8144, 8147); (8150, 8155); (8160, 8172);
   (8178, 8180); (8182, 8188); (8450, 8450); (8455, 8455); (8458, 8467); (8469, 8469);
   (8473, 8477); (8484, 8484); (8486, 8486); (8488, 8488); (8490, 8493); (8495, 8500);
   (8505, 8505); (8508, 8511); (8517, 8521); (8526, 8526); (8544, 8575); (8579, 8580);
   (9398, 9449); (11264, 11387); (11390, 11492); (11499, 11502); (11506, 11507); (11520, 11557);
   (11559, 11559); (11565, 11565); (42560, 42605); (42624, 42651); (42786, 42863); (42865, 42887);
   (42891, 42894); (42896, 42954); (42960, 42961); (42963, 42963); (42965, 42969); (42997, 42998);
   (43002, 43002); (43824, 43866); (43872, 43880); (43888, 43967); (64256, 64262); (64275, 64279);
   (65313, 65338); (65345, 65370); (66560, 66639); (66736, 66771); (66776, 66811); (66928, 66938);
   (66940, 66954); (66956, 66962); (66964, 66965); (66967, 66977); (66979, 66993); (66995, 67001);
   (67003, 67004); (68736, 68786); (68800, 68850); (71840, 71903); (93760, 93823); (119808, 119892);
   (119894, 119964); (119966, 119967); (119970, 119970); (119973, 119974); (119977, 119980); (119982, 119993);
   (119995, 119995); (119997, 120003); (120005, 120069); (120071, 120074); (120077, 120084); (120086, 120092);
   (120094, 120121); (120123, 120126); (120128, 120132); (120134, 120134); (120138, 120144); (120146, 120485);
   (120488, 120512); (120514, 120538); (120540, 120570); (120572, 120596); (120598, 120628); (120630, 120654);
   (120656, 120686); (120688, 120712); (120714, 120744); (120746, 120770); (120772, 120779); (122624, 122633);
   (122635, 122654); (125184, 125251); (127280, 127305); (127312, 127337); (127344, 127369)].

Fixpoint lower_lookup (rs : list (Z * Z * Z * Z)) (c : Z) : Z :=
  match rs with
  | [] => c
  | (lo, hi, st, d) :: r =>
      if (lo <=? c) && (c <=? hi) && (Z.modulo (c - lo) st =? 0) then c + d
      else lower_lookup r c
  end.

Definition lower_full (c : Z) : list Z :=
  if (65 <=? c) && (c <=? 90) then [c + 32]
  else if c <? 128 then [c]
  else if c =? 304 then [105; 775]
  else [lower_lookup lower_runs c].

Fixpoint skip_case_ignorable (l : list Z) : option Z :=
  match l with
  | [] => None
  | c :: r => if in_ranges case_ignorable_ranges c then skip_case_ignorable r else Some c
  end.

(** [handle_capital_sigma]: [before] holds the preceding code points,
    nearest first, [after] the following ones. *)
Definition final_sigma (before after : list Z) : bool :=
  match skip_case_ignorable before with
  | Some c =>
      in_ranges cased_ranges c &&
      match skip_case_ignorable after with
      | None => true
      | Some c' => negb (in_ranges cased_ranges c')
      end
  | None => false
  end.

Fixpoint lower_cps (before l : list Z) : list Z :=
  match l with
  | [] => []
  | c :: r =>
      (if c =? 931 then [if final_sigma before r then 962 else 963] else lower_full c)
      ++ lower_cps (c :: before) r
  end.

(** [s.lower()]. *)
Definition py_lower (s : string) : string := utf8_encode (lower_cps [] (utf8_decode s)).

(** [_PyUnicode_TransformDecimalAndSpaceToASCII], the first step of [int(s)]
    and [float(s)]: an ASCII string is kept; otherwise every code point
    below 127 is kept, a Unicode space becomes [' '], a decimal digit its
    ASCII digit, and the first other character becomes ['?'], which ends
    the string. *)
Fixpoint transform_cps (l : list Z) : string :=
  match l with
  | [] => EmptyString
  | c :: r =>
      if (0 <=? c) && (c <? 127) then String (Z_byte c) (transform_cps r)
      else if py_unicode_isspace c then String " " (transform_cps r)
      else match py_unicode_todecimal c with
           | Some d => String (digit_char d) (transform_cps r)
           | None => "?"
           end
  end.

Definition transform_decimal_and_space (s : string) : string :=
  if is_ascii_str s then s else transform_cps (utf8_decode s).

(** [repr(s)], as in [unicode_repr]. *)
Definition hex_digit (n : Z) : ascii :=
  if n <? 10 then Z_byte (48 + n) else Z_byte (87 + n).

Fixpoint hex_n (k : nat) (c : Z) : string :=
  match k with
  | O => EmptyString
  | S k' => hex_n k' (c / 16) ++ str1 (hex_digit (c mod 16))
  end.

Definition backslash : ascii := Z_byte 92.

Definition repr_char (quote c : Z) : string :=
  if c <? 0 then String backslash ("x" ++ hex_n 2 (- c))
  else if (c =? quote) || (c =? 92) then String backslash (str1 (Z_byte c))
  else if c =? 9 then String backslash "t"
  else if c =? 10 then String backslash "n"
  else if c =? 13 then String backslash "r"
  else if (c <? 32) || (c =? 127) then String backslash ("x" ++ hex_n 2 c)
  else if c <? 127 then str1 (Z_byte c)
  else if negb (in_ranges nonprintable_ranges c) then utf8_encode_cp c
  else if c <=? 255 then String backslash ("x" ++ hex_n 2 c)
  else if c <=? 65535 then String backslash ("u" ++ hex_n 4 c)
  else String backslash ("U" ++ hex_n 8 c).

Definition py_repr (s : string) : string :=
  let l := utf8_decode s in
  let quote := if existsb (Z.eqb 39) l && negb (existsb (Z.eqb 34) l) then 34 else 39 in
  String (Z_byte quote)
    (fold_right (fun c acc => repr_char quote c ++ acc) EmptyString l ++ str1 (Z_byte quote)).

(** ** Host float formatting: [format(x, '.<d>f')] and [format(x, '.<p>e')]

    CPython renders the exact binary value of the float, correctly rounded
    to the requested number of digits, exact ties going to the even digit. *)

(** Nearest integer to [n / q] ([q > 0]), ties to even. *)
Definition round_div_even (n q : Z) : Z :=
  let '(qt, r) := Z.div_eucl n q in
  match Z.compare (2 * r) q with
  | Lt => qt
  | Gt => qt + 1
  | Eq => if Z.even qt then qt else qt + 1
  end.

(** The magnitude [m * 2^e] as a fraction [num / den] with [den > 0]. *)
Definition frac_of (m : positive) (e : Z) : Z * Z :=
  if 0 <=? e then (Z.pos m * 2 ^ e, 1) else (Z.pos m, 2 ^ (- e)).

Definition sign_str (s : bool) : string := if s then "-" else "".

(** The precision check of the format-spec parser and of the float
    formatter. *)
Definition check_precision (d : Z) : result unit :=
  if d <? 0 then Raise (ValueError "Format specifier missing precision")
  else if 9223372036854775807 <? d
  then Raise (ValueError "Too many decimal digits in format string")
  else if 2147483647 <? d then Raise (ValueError "precision too big")
  else Ok tt.

(** The digits of [R / 10^d] with the decimal point [d] places from the
    right, as the ['f'] presentation type writes them. *)
Definition fixed_digits (d R : Z) : string :=
  Z_to_dec (R / 10 ^ d) ++
  (if d =? 0 then "" else "." ++ zpad d (Z_to_dec (R mod 10 ^ d))).

(** [format(x, '.<d>f')]. *)
Definition py_format_fixed (d : Z) (x : float) : result string :=
  _ <- check_precision d ;;
  Ok match x with
     | S754_nan => "nan"
     | S754_infinity s => sign_str s ++ "inf"
     | S754_zero s => sign_str s ++ fixed_digits d 0
     | S754_finite s m e =>
         let '(n, q) := frac_of m e in
         sign_str s ++ fixed_digits d (round_div_even (n * 10 ^ d) q)
     end.

(** [floor(log10 n)] for [n > 0]. *)
Fixpoint log10_aux (fuel : nat) (n : Z) : Z :=
  match fuel with
  | O => 0
  | S f => if n <? 10 then 0 else 1 + log10_aux f (n / 10)
  end.

Definition zlog10 (n : Z) : Z := log10_aux (S (Z.to_nat (Z.log2 n))) n.

(** [floor(log10(n / q))] for [n, q > 0]. *)
Definition floor_log10 (n q : Z) : Z :=
  let t := zlog10 n - zlog10 q in
  let ge := if 0 <=? t then q * 10 ^ t <=? n else q <=? n * 10 ^ (- t) in
  if ge then t else t - 1.

(** The mantissa [M] (with [p + 1] digits) and exponent [E] of [n / q] in
    ['e'] presentation with [p] fractional digits. *)
Definition sci_parts (p n q : Z) : Z * Z :=
  let E := floor_log10 n q in
  let M := if 0 <=? p - E then round_div_even (n * 10 ^ (p - E)) q
           else round_div_even n (q * 10 ^ (E - p)) in
  if M =? 10 ^ (p + 1) then (10 ^ p, E + 1) else (M, E).

Definition sci_digits (p M E : Z) : string :=
  let ds := zpad (p + 1) (Z_to_dec M) in
  match ds with
  | EmptyString => EmptyString
  | String c rest => str1 c ++ (if p =? 0 then "" else "." ++ rest)
  end ++ "e" ++ (if E <? 0 then "-" else "+") ++ zpad 2 (Z_to_dec (Z.abs E)).

(** [format(x, '.<p>e')]. *)
Definition py_format_sci (p : Z) (x : float) : result string :=
  _ <- check_precision p ;;
  Ok match x with
     | S754_nan => "nan"
     | S754_infinity s => sign_str s ++ "inf"
     | S754_zero s => sign_str s ++ sci_digits p 0 0
     | S754_finite s m e =>
         let '(n, q) := frac_of m e in
         let '(M, E) := sci_parts p n q in
         sign_str s ++ sci_digits p M E
     end.

(** ** Configuration: [LOCALE_CONFIG] *)

Record locale_cfg := {
  decimal_sep : string;
  thousands_sep : string;
  currency_symbol : string;
  currency_symbol_position : string;
  currency_symbol_space : bool
}.

Definition US_cfg : locale_cfg := {|
  decimal_sep := "."; thousands_sep := ","; currency_symbol := "$";
  currency_symbol_position := "before"; currency_symbol_space := false |}.

Definition EU_cfg : locale_cfg := {|
  decimal_sep := ","; thousands_sep := "."; currency_symbol := "€";
  currency_symbol_position := "after"; currency_symbol_space := true |}.

Definition UK_cfg : locale_cfg := {|
  decimal_sep := "."; thousands_sep := ","; currency_symbol := "£";
  currency_symbol_position := "before"; currency_symbol_space := false |}.

Definition LOCALE_CONFIG : list (string * locale_cfg) :=
  [("US", US_cfg); ("EU", EU_cfg); ("UK", UK_cfg)].

(** [LOCALE_CONFIG.get(locale)]. *)
Fixpoint dict_get {V} (d : list (string * V)) (k : string) : option V :=
  match d with
  | [] => None
  | (k', v) :: d' => if String.eqb k k' then Some v else dict_get d' k
  end.

(** ** Formatting helpers *)

(** [[rev[i:i+3] for i in range(0, len(rev), 3)]]. *)
Fixpoint chunks3 (s : string) : list string :=
  match s with
  | String a (String b (String c rest)) =>
      String a (String b (str1 c)) :: chunks3 rest
  | EmptyString => []
  | _ => [s]
  end.

Definition group_thousands (integer_part sep : string) : string :=
  if Nat.leb (String.length integer_part) 3 then integer_part
  else
    let rev := str_rev integer_part in
    let groups := chunks3 rev in
    String.concat sep (map str_rev (List.rev groups)).

Definition format_plain (value : float) (cfg : locale_cfg) (decimals : Z)
    (grouping : bool) : result string :=
  let sign := if py_lt_zero value then "-" else "" in
  let abs_val := py_abs value in
  number_str <- py_format_fixed decimals abs_val ;;
  parts <- (if contains_char "." number_str then
              match py_split "." number_str with
              | [i; f] => Ok (i, f)
              | [_] => Raise (ValueError "not enough values to unpack (expected 2, got 1)")
              | _ => Raise (ValueError "too many values to unpack (expected 2)")
              end
            else Ok (number_str, "")) ;;
  let '(int_part, frac_part) := parts in
  let int_part := if grouping then group_thousands int_part (thousands_sep cfg)
                  else int_part in
  let result := if 0 <? decimals then int_part ++ decimal_sep cfg ++ frac_part
                else int_part in
  Ok (sign ++ result).

Definition format_currency (value : float) (cfg : locale_cfg) (decimals : Z)
    : result string :=
  base <- format_plain value cfg decimals true ;;
  let '(sign, base) := if py_startswith "-" base then ("-", py_drop1 base)
                       else ("", base) in
  let symbol := currency_symbol cfg in
  let before := String.eqb (currency_symbol_position cfg) "before" in
  let space := if currency_symbol_space cfg then " " else "" in
  let formatted_number := if before then symbol ++ space ++ base
                          else base ++ space ++ symbol in
  Ok (sign ++ formatted_number).

Definition format_scientific (value : float) (cfg : locale_cfg) (digits : Z)
    : result string :=
  raw <- py_format_sci digits value ;;
  let sep := decimal_sep cfg in
  if negb (String.eqb sep ".") then
    match py_split "e" raw with
    | [mantissa; exp] => Ok (py_replace_first "." sep mantissa ++ "e" ++ exp)
    | [_] => Raise (ValueError "not enough values to unpack (expected 2, got 1)")
    | _ => Raise (ValueError "too many values to unpack (expected 2)")
    end
  else Ok raw.

Definition format_number (value : float) (locale style : string)
    (decimals : option Z) : result string :=
  match dict_get LOCALE_CONFIG locale with
  | None => Raise (ValueError ("Unknown locale: " ++ locale))
  | Some cfg =>
      let style := py_lower style in
      if String.eqb style "currency" then
        format_currency value cfg (match decimals with None => 2 | Some d => d end)
      else if (String.eqb style "comma" || String.eqb style "grouped")%bool then
        format_plain value cfg (match decimals with None => 0 | Some d => d end) true
      else if (String.eqb style "round" || String.eqb style "rounded")%bool then
        format_plain value cfg (match decimals with None => 0 | Some d => d end) false
      else if (String.eqb style "sci" || String.eqb style "scientific")%bool then
        format_scientific value cfg 3
      else Raise (ValueError ("Unknown style: " ++ style))
  end.

(** ** [float(value)] and [int(text)] at the request boundary *)

(** A Python value as received from a query string or a JSON body. *)
Inductive pyval :=
| PyNone
| PyBool (b : bool)
| PyInt (z : Z)
| PyFloat (f : float)
| PyStr (s : string)
| PyOther (type_name : string).

(** [Py_ISSPACE]: space, tab, newline, vertical tab, form feed, return. *)
Definition is_space (c : ascii) : bool :=
  let n := nat_of_ascii c in (Nat.eqb n 32 || (Nat.leb 9 n && Nat.leb n 13))%bool.

Fixpoint lstrip (s : string) : string :=
  match s with
  | String c s' => if is_space c then lstrip s' else s
  | EmptyString => EmptyString
  end.

Definition strip (s : string) : string := str_rev (lstrip (str_rev (lstrip s))).

(** The underscore rule of [_Py_string_to_number_with_underscores] and of
    [PyLong_FromString]: an underscore must follow a digit and precede a
    digit; the scan starts with [prev] the NUL character. *)
Fixpoint underscores_ok (prev : ascii) (s : string) : bool :=
  match s with
  | EmptyString => negb (Ascii.eqb prev "_")
  | String c s' =>
      (if Ascii.eqb c "_" then is_digit prev
       else if Ascii.eqb prev "_" then is_digit c else true)
      && underscores_ok c s'
  end.

Fixpoint remove_underscores (s : string) : string :=
  match s with
  | EmptyString => EmptyString
  | String c s' =>
      if Ascii.eqb c "_" then remove_underscores s' else String c (remove_underscores s')
  end.

Definition split_sign (s : string) : bool * string :=
  match s with
  | String "-" s' => (true, s')
  | String "+" s' => (false, s')
  | _ => (false, s)
  end.

(** Leading decimal digits: accumulated value, count and the rest. *)
Fixpoint read_digits (s : string) (acc cnt : Z) : Z * Z * string :=
  match s with
  | String c s' =>
      if is_digit c then read_digits s' (10 * acc + Z.of_nat (nat_of_ascii c - 48)) (cnt + 1)
      else (acc, cnt, s)
  | EmptyString => (acc, cnt, s)
  end.

Definition parse_exponent (s : string) : option Z :=
  match s with
  | EmptyString => Some 0
  | String c s' =>
      if (Ascii.eqb c "e" || Ascii.eqb c "E")%bool then
        let '(neg, t) := split_sign s' in
        let '(x, cnt, rest) := read_digits t 0 0 in
        if (0 <? cnt) && String.eqb rest "" then Some (if neg then - x else x)
        else None
      else None
  end.

(** The binary64 value nearest to [a / b] ([a, b > 0]), ties to even. *)
Definition div_round (neg : bool) (a b : Z) : float :=
  let sh := Z.max 0 (prec + 2 + Z.log2 b - Z.log2 a) in
  let '(q, r) := Z.div_eucl (a * 2 ^ sh) b in
  let loc := if r =? 0 then loc_Exact else loc_Inexact (Z.compare (2 * r) b) in
  binary_round_aux prec emax neg q (- sh) loc.

(** The binary64 value nearest to [N * 10^X], with sign [neg]. *)
Definition decimal_to_float (neg : bool) (N X : Z) : float :=
  if N =? 0 then S754_zero neg
  else if 0 <=? X then
    binary_normalize prec emax (if neg then - (N * 10 ^ X) else N * 10 ^ X) 0 neg
  else div_round neg N (10 ^ (- X)).

Definition parse_decimal (neg : bool) (s : string) : option float :=
  let '(n1, c1, r1) := read_digits s 0 0 in
  let '(n2, c2, r2) :=
    match r1 with
    | String "." r => read_digits r n1 0
    | _ => (n1, 0, r1)
    end in
  if (c1 + c2 =? 0) then None
  else match parse_exponent r2 with
       | Some x => Some (decimal_to_float neg n2 (x - c2))
       | None => None
       end.

(** [float(s)] for a [str]: [PyFloat_FromString].  The underscore rule of
    [_Py_string_to_number_with_underscores] is checked on the whole
    transformed text, [float_from_string_inner] strips the whitespace, and
    [_PyOS_ascii_strtod] reads a decimal or, through
    [_Py_parse_inf_or_nan], [inf], [infinity] or [nan] in any ASCII case. *)
Definition py_float_of_string (s : string) : result float :=
  let err := Raise (ValueError ("could not convert string to float: " ++ py_repr s)) in
  let a := transform_decimal_and_space s in
  if negb (underscores_ok "000"%char a) then err
  else
    let '(neg, body) := split_sign (strip (remove_underscores a)) in
    let low := ascii_lower_str body in
    if (String.eqb low "inf" || String.eqb low "infinity")%bool then Ok (S754_infinity neg)
    else if String.eqb low "nan" then Ok S754_nan
    else match parse_decimal neg body with
         | Some f => Ok f
         | None => err
         end.

(** [float(value)]. *)
Definition py_float (v : pyval) : result float :=
  match v with
  | PyNone => Raise (TypeError "float() argument must be a string or a real number, not 'NoneType'")
  | PyBool b => Ok (binary_normalize prec emax (if b then 1 else 0) 0 false)
  | PyInt z =>
      match binary_normalize prec emax z 0 false with
      | S754_infinity _ => Raise (OverflowError "int too large to convert to float")
      | f => Ok f
      end
  | PyFloat f => Ok f
  | PyStr s => py_float_of_string s
  | PyOther t => Raise (TypeError ("float() argument must be a string or a real number, not '" ++ t ++ "'"))
  end.

(** The default of [sys.get_int_max_str_digits()]. *)
Definition int_max_str_digits : Z := 4300.

(** [int(s)] for a [str] (base 10): [PyLong_FromUnicodeObject], which
    transforms the text and calls [PyLong_FromString]: whitespace, an
    optional sign, digits with single underscores between them (none first
    or last), whitespace; at most [int_max_str_digits] digits.  [None]
    stands for the [ValueError]. *)
Definition py_int_of_string (s : string) : option Z :=
  let t := strip (transform_decimal_and_space s) in
  if negb (underscores_ok "000"%char t) then None
  else
    let '(neg, body) := split_sign (remove_underscores t) in
    let '(x, cnt, rest) := read_digits body 0 0 in
    if (0 <? cnt) && (cnt <=? int_max_str_digits) && String.eqb rest ""
    then Some (if neg then - x else x) else None.

(** ** The [/format] endpoint *)

Inductive response :=
| Formatted (value : float) (locale style : string) (decimals : option Z)
    (formatted : string)
| ErrorResponse (status : Z) (msg : string).

(** Lines after the request fields are extracted: the value check, the
    [float] conversion and the call of [format_number], for string [locale]
    and [style] (as a GET request always supplies them).  An exception the
    handler does not catch becomes Flask's status 500. *)
Definition format_endpoint_body (value : pyval) (locale style : string)
    (decimals : option Z) : response :=
  match value with
  | PyNone => ErrorResponse 400 "value is required"
  | _ =>
      match py_float value with
      | Raise (TypeError _) | Raise (ValueError _) =>
          ErrorResponse 400 "value must be numeric"
      | Raise _ => ErrorResponse 500 "Internal Server Error"
      | Ok v =>
          match format_number v locale style decimals with
          | Ok formatted => Formatted v locale style decimals formatted
          | Raise (ValueError msg) => ErrorResponse 400 msg
          | Raise _ => ErrorResponse 500 "Internal Server Error"
          end
      end
  end.

(** A GET request: [request.args] as an association list; [decimals] is
    read with [type=int], which yields [None] when [int] fails. *)
Definition format_endpoint_get (args : list (string * string)) : response :=
  let value := match dict_get args "value" with Some s => PyStr s | None => PyNone end in
  let locale := match dict_get args "locale" with Some s => s | None => "US" end in
  let style := match dict_get args "style" with Some s => s | None => "currency" end in
  let decimals := match dict_get args "decimals" with
                  | Some s => py_int_of_string s
                  | None => None
                  end in
  format_endpoint_body value locale style decimals.

(** The [decimals] field of a JSON body: absent or [null], an integer, or a
    string (the types the handler's conversion step distinguishes). *)
Inductive json_decimals :=
| DecNone
| DecInt (z : Z)
| DecStr (s : string).

(** A POST request: the fields [data.get("value")], [data.get("locale", "US")],
    [data.get("style", "currency")] and [data.get("decimals")] of the JSON
    body (after [or {}]), with [locale] and [style] strings or absent; a
    string [decimals] goes through [int()] before the value check. *)
Definition format_endpoint_post (value : pyval) (locale style : option string)
    (decimals : json_decimals) : response :=
  let locale := match locale with Some s => s | None => "US" end in
  let style := match style with Some s => s | None => "currency" end in
  match decimals with
  | DecNone => format_endpoint_body value locale style None
  | DecInt z => format_endpoint_body value locale style (Some z)
  | DecStr s =>
      match py_int_of_string s with
      | Some z => format_endpoint_body value locale style (Some z)
      | None => ErrorResponse 400 "decimals must be an integer"
      end
  end.

(** [list_locales]: [list(LOCALE_CONFIG.keys())]. *)
Definition list_locales : list string := map fst LOCALE_CONFIG.

(** [str(z)] for a Python [int]; [None] stands for the [ValueError] it
    raises past [int_max_str_digits] digits. *)
Definition py_str_of_int (z : Z) : option string :=
  if 10 ^ int_max_str_digits <=? Z.abs z then None
  else Some (if z <? 0 then "-" ++ Z_to_dec (- z) else Z_to_dec z).

(** * Properties *)

(** ** String lemmas *)

Lemma append_nil_r (s : string) : s ++ "" = s.
Proof. induction s; simpl; congruence. Qed.

Lemma append_assoc (a b c : string) : (a ++ b) ++ c = a ++ (b ++ c).
Proof. induction a; simpl; congruence. Qed.

Lemma length_append (a b : string) :
  String.length (a ++ b) = (String.length a + String.length b)%nat.
Proof. induction a; simpl; congruence. Qed.

Lemma str_rev_append (a b : string) : str_rev (a ++ b) = str_rev b ++ str_rev a.
Proof.
  induction a; simpl.
  - now rewrite append_nil_r.
  - now rewrite IHa, append_assoc.
Qed.

Lemma str_rev_involutive (s : string) : str_rev (str_rev s) = s.
Proof. induction s; simpl; [reflexivity|]. now rewrite str_rev_append, IHs. Qed.

Lemma length_str_rev (s : string) : String.length (str_rev s) = String.length s.
Proof. induction s; simpl; [reflexivity|]. rewrite length_append; simpl; lia. Qed.

Lemma concat_empty_sep (l : list string) :
  String.concat "" l = fold_right String.append "" l.
Proof.
  induction l as [|x l IH]; [reflexivity|].
  destruct l as [|y l]; simpl in *.
  - now rewrite append_nil_r.
  - now rewrite IH.
Qed.

Lemma fold_append_init (l : list string) (z : string) :
  fold_right String.append z l = fold_right String.append "" l ++ z.
Proof. induction l; simpl; [reflexivity|]. now rewrite IHl, append_assoc. Qed.

Lemma str_rev_concat (l : list string) :
  str_rev (fold_right String.append "" l)
  = fold_right String.append "" (map str_rev (List.rev l)).
Proof.
  induction l as [|x l IH]; [reflexivity|].
  simpl. rewrite str_rev_append, IH, map_app, fold_right_app. simpl.
  now rewrite append_nil_r, (fold_append_init _ (str_rev x)).
Qed.

(** ** Shape of [chunks3] *)

Lemma chunks3_shape (n : nat) (s : string) :
  (String.length s <= n)%nat -> s <> "" ->
  exists full last,
    chunks3 s = (full ++ [last])%list /\
    Forall (fun g => String.length g = 3%nat) full /\
    (1 <= String.length last <= 3)%nat /\
    s = fold_right String.append "" full ++ last.
Proof.
  revert s; induction n as [|n IH]; intros s Hlen Hne.
  - destruct s; simpl in Hlen; [congruence | lia].
  - destruct s as [|a [|b [|c rest]]]; [congruence| | |].
    + exists [], (str1 a); simpl; repeat split; auto.
    + exists [], (String a (str1 b)); simpl; repeat split; auto.
    + destruct rest as [|d rest'].
      * exists [], (String a (String b (str1 c))); simpl; repeat split; auto.
      * simpl in Hlen.
        destruct (IH (String d rest')) as (full & last & Hc & Hf & Hl & Hs);
          [simpl; lia | congruence |].
        exists (String a (String b (str1 c)) :: full), last.
        change (chunks3 (String a (String b (String c (String d rest')))))
          with (String a (String b (str1 c)) :: chunks3 (String d rest')).
        rewrite Hc. repeat split; auto; try lia.
        simpl. rewrite Hs. reflexivity.
Qed.

(** ** Grouping of a long digit string *)

Lemma group_thousands_long (digits sep : string) :
  (3 < String.length digits)%nat ->
  exists g gs,
    digits = g ++ String.concat "" gs /\
    (1 <= String.length g <= 3)%nat /\
    Forall (fun x => String.length x = 3%nat) gs /\
    group_thousands digits sep = String.concat sep (g :: gs).
Proof.
  intros H. unfold group_thousands.
  destruct (Nat.leb_spec (String.length digits) 3) as [H'|_]; [lia|].
  destruct (chunks3_shape (String.length (str_rev digits)) (str_rev digits))
    as (full & last & Hc & Hf & Hl & Hs); [lia| |].
  { intros E. apply (f_equal String.length) in E.
    rewrite length_str_rev in E. simpl in E. lia. }
  exists (str_rev last), (map str_rev (List.rev full)).
  rewrite Hc, rev_app_distr. simpl List.rev. simpl map.
  repeat split.
  - rewrite <- (str_rev_involutive digits), Hs, str_rev_append.
    now rewrite concat_empty_sep, str_rev_concat.
  - rewrite length_str_rev; lia.
  - rewrite length_str_rev; lia.
  - apply Forall_map, Forall_rev.
    eapply Forall_impl; [|exact Hf]. intros x Hx; now rewrite length_str_rev.
Qed.

Lemma group_thousands_short (digits sep : string) :
  (String.length digits <= 3)%nat -> group_thousands digits sep = digits.
Proof.
  intros H. unfold group_thousands. now apply Nat.leb_le in H; rewrite H.
Qed.

(** ** C3: thousands grouping *)

(** Claim C3: a digit string of length at most 3 (the empty string and
    ["000"] among them) is returned unchanged; a longer one is cut into
    groups of three counted from the right, the leftmost group having one
    to three digits, and the groups are joined left to right with the
    separator.  (The statement holds for any string, digits or not.) *)
Theorem group_thousands_spec (digits sep : string) :
  ((String.length digits <= 3)%nat -> group_thousands digits sep = digits) /\
  ((3 < String.length digits)%nat ->
   exists g gs,
     digits = g ++ String.concat "" gs /\
     (1 <= String.length g <= 3)%nat /\
     Forall (fun x => String.length x = 3%nat) gs /\
     group_thousands digits sep = String.concat sep (g :: gs)) /\
  group_thousands "" sep = "" /\
  group_thousands "000" sep = "000".
Proof.
  split; [apply group_thousands_short|].
  split; [apply group_thousands_long|].
  split; reflexivity.
Qed.

Lemma group_thousands_spec_witness :
  (exists g gs, group_thousands "1234567" "," = String.concat "," (g :: gs)) /\
  group_thousands "42" "," = "42".
Proof.
  split.
  - destruct (proj1 (proj2 (group_thousands_spec "1234567" ","))) as (g & gs & _ & _ & _ & E);
      [simpl; lia|].
    exists g, gs. exact E.
  - apply (proj1 (group_thousands_spec "42" ",")). simpl; lia.
Defined.

(** ** Digit strings *)

Definition is_finite (x : float) : bool :=
  match x with
  | S754_zero _ | S754_finite _ _ _ => true
  | _ => false
  end.

(** The integer [round(|x| * 10^d)] that [format(abs(x), '.<d>f')] writes. *)
Definition scaled_round (d : Z) (x : float) : Z :=
  match x with
  | S754_finite _ m e => let '(n, q) := frac_of m e in round_div_even (n * 10 ^ d) q
  | _ => 0
  end.

Lemma all_digits_append (a b : string) :
  all_digits (a ++ b) = all_digits a && all_digits b.
Proof. induction a; simpl; [reflexivity|]. now rewrite IHa, andb_assoc. Qed.

Lemma digit_char_is_digit (n : Z) : 0 <= n < 10 -> is_digit (digit_char n) = true.
Proof.
  intros Hn. unfold is_digit, digit_char.
  rewrite nat_ascii_embedding by lia.
  apply andb_true_intro; split; apply Nat.leb_le; lia.
Qed.

Lemma dec_digits_all_digits (f : nat) (n : Z) (acc : string) :
  0 <= n -> all_digits acc = true -> all_digits (dec_digits f n acc) = true.
Proof.
  revert n acc; induction f as [|f IH]; intros n acc Hn Hacc; cbn [dec_digits]; [exact Hacc|].
  assert (Hd : all_digits (String (digit_char (n mod 10)) acc) = true).
  { cbn [all_digits]. rewrite digit_char_is_digit, Hacc by (apply Z.mod_pos_bound; lia).
    reflexivity. }
  destruct (n <? 10); [exact Hd|].
  apply IH; [apply Z.div_pos; lia | exact Hd].
Qed.

Lemma dec_digits_length_ge (f : nat) (n : Z) (acc : string) :
  (String.length acc <= String.length (dec_digits f n acc))%nat.
Proof.
  revert n acc; induction f as [|f IH]; intros n acc; cbn [dec_digits]; [lia|].
  destruct (n <? 10); cbn [String.length]; [lia|].
  specialize (IH (n / 10) (String (digit_char (n mod 10)) acc)).
  cbn [String.length] in IH. lia.
Qed.

Lemma dec_digits_length_le (f : nat) (n k : Z) (acc : string) :
  0 <= n < 10 ^ k -> 1 <= k ->
  (String.length (dec_digits f n acc) <= Z.to_nat k + String.length acc)%nat.
Proof.
  revert n k acc; induction f as [|f IH]; intros n k acc Hn Hk; cbn [dec_digits]; [lia|].
  destruct (Z.ltb_spec n 10); cbn [String.length]; [lia|].
  assert (Hk2 : 2 <= k).
  { destruct (Z.le_gt_cases 2 k) as [|Hlt]; [assumption|].
    assert (k = 1) by lia. subst k. simpl in Hn. lia. }
  specialize (IH (n / 10) (k - 1) (String (digit_char (n mod 10)) acc)).
  cbn [String.length] in IH.
  assert (0 <= n / 10 < 10 ^ (k - 1)).
  { split; [apply Z.div_pos; lia|].
    apply Z.div_lt_upper_bound; [lia|].
    replace (10 * 10 ^ (k - 1)) with (10 ^ k); [lia|].
    rewrite <- Z.pow_succ_r by lia. f_equal; lia. }
  specialize (IH H0 ltac:(lia)). lia.
Qed.

Lemma Z_to_dec_all_digits (n : Z) : 0 <= n -> all_digits (Z_to_dec n) = true.
Proof. intros; now apply dec_digits_all_digits. Qed.

Lemma Z_to_dec_nonempty (n : Z) : Z_to_dec n <> "".
Proof.
  unfold Z_to_dec. intros E.
  pose proof (dec_digits_length_ge (Z.to_nat (Z.log2 n)) (n / 10)
                (String (digit_char (n mod 10)) "")) as L.
  cbn [dec_digits] in E. destruct (n <? 10); [discriminate|].
  rewrite E in L. cbn [String.length] in L. lia.
Qed.

Lemma Z_to_dec_length_le (n k : Z) :
  0 <= n < 10 ^ k -> 1 <= k -> (String.length (Z_to_dec n) <= Z.to_nat k)%nat.
Proof.
  intros Hn Hk. unfold Z_to_dec.
  pose proof (dec_digits_length_le (S (Z.to_nat (Z.log2 n))) n k "" Hn Hk).
  cbn [String.length] in H. lia.
Qed.

Lemma repeat_zero_all_digits (n : nat) : all_digits (repeat_char n "0") = true.
Proof. induction n; simpl; auto. Qed.

Lemma repeat_char_length (n : nat) (c : ascii) : String.length (repeat_char n c) = n.
Proof. induction n; simpl; auto. Qed.

Lemma zpad_shape (w : Z) (s : string) :
  all_digits s = true -> (String.length s <= Z.to_nat w)%nat ->
  all_digits (zpad w s) = true /\ String.length (zpad w s) = Z.to_nat w.
Proof.
  intros Hs Hl. unfold zpad. split.
  - now rewrite all_digits_append, repeat_zero_all_digits, Hs.
  - rewrite length_append, repeat_char_length. lia.
Qed.

Lemma all_digits_no_char (c : ascii) (s : string) :
  is_digit c = false -> all_digits s = true -> contains_char c s = false.
Proof.
  intros Hc; induction s as [|x s IH]; simpl; [reflexivity|].
  intros H. apply andb_true_iff in H as [Hx Hs].
  rewrite IH by exact Hs. rewrite orb_false_r.
  destruct (Ascii.eqb_spec c x); [subst; congruence | reflexivity].
Qed.

Lemma py_split_no_sep (c : ascii) (s : string) :
  contains_char c s = false -> py_split c s = [s].
Proof.
  induction s as [|x s IH]; simpl; [reflexivity|].
  intros H. apply orb_false_iff in H as [Hx Hs].
  rewrite Hx, IH by exact Hs. reflexivity.
Qed.

Lemma py_split_app (c : ascii) (a b : string) :
  contains_char c a = false -> py_split c (a ++ String c b) = a :: py_split c b.
Proof.
  induction a as [|x a IH]; simpl; intros H.
  - now rewrite Ascii.eqb_refl.
  - apply orb_false_iff in H as [Hx Ha]. rewrite Hx, IH by exact Ha. reflexivity.
Qed.

Lemma contains_char_app (c : ascii) (a b : string) :
  contains_char c (a ++ b) = contains_char c a || contains_char c b.
Proof. induction a; simpl; [reflexivity|]. now rewrite IHa, orb_assoc. Qed.

(** ** The fixed-point rendering of a finite magnitude *)

Lemma round_div_even_nonneg (n q : Z) : 0 <= n -> 0 < q -> 0 <= round_div_even n q.
Proof.
  intros Hn Hq. unfold round_div_even.
  destruct (Z.div_eucl n q) as [qt r] eqn:E.
  assert (qt = n / q) by (unfold Z.div; now rewrite E).
  assert (0 <= n / q) by (apply Z.div_pos; lia).
  destruct (Z.compare (2 * r) q); [destruct (Z.even qt)| |]; lia.
Qed.

Lemma frac_of_pos (m : positive) (e : Z) :
  0 <= fst (frac_of m e) /\ 0 < snd (frac_of m e).
Proof.
  unfold frac_of. destruct (Z.leb_spec 0 e); cbn [fst snd].
  - split; [apply Z.mul_nonneg_nonneg; [lia | apply Z.pow_nonneg; lia] | lia].
  - split; [lia | apply Z.pow_pos_nonneg; lia].
Qed.

Lemma scaled_round_nonneg (d : Z) (x : float) : 0 <= d -> 0 <= scaled_round d x.
Proof.
  intros Hd. destruct x as [| | |s m e]; cbn [scaled_round]; try lia.
  pose proof (frac_of_pos m e) as [Hn Hq].
  destruct (frac_of m e) as [n q]; cbn [fst snd] in *.
  apply round_div_even_nonneg; [|lia].
  apply Z.mul_nonneg_nonneg; [lia | apply Z.pow_nonneg; lia].
Qed.

Lemma check_precision_ok (d : Z) : 0 <= d <= 2147483647 -> check_precision d = Ok tt.
Proof.
  intros Hd. unfold check_precision.
  destruct (Z.ltb_spec d 0); [lia|].
  destruct (Z.ltb_spec 9223372036854775807 d); [lia|].
  destruct (Z.ltb_spec 2147483647 d); [lia|]. reflexivity.
Qed.

Lemma check_precision_big (d : Z) :
  2147483647 < d -> exists msg, check_precision d = Raise (ValueError msg).
Proof.
  intros Hd. unfold check_precision.
  destruct (Z.ltb_spec d 0); [lia|].
  destruct (Z.ltb_spec 9223372036854775807 d); [eexists; reflexivity|].
  destruct (Z.ltb_spec 2147483647 d); [eexists; reflexivity | lia].
Qed.

Lemma py_format_fixed_abs (d : Z) (x : float) :
  is_finite x = true -> 0 <= d <= 2147483647 ->
  py_format_fixed d (py_abs x) = Ok (fixed_digits d (scaled_round d x)).
Proof.
  intros Hx Hd. unfold py_format_fixed. rewrite check_precision_ok by exact Hd.
  destruct x as [s| | |s m e]; try discriminate; cbn [bind py_abs SFabs]; [reflexivity|].
  unfold scaled_round. destruct (frac_of m e); reflexivity.
Qed.

Lemma dot_not_digit : is_digit "." = false.
Proof. reflexivity. Qed.

Lemma fixed_digits_shape (d R : Z) :
  0 <= d -> 0 <= R ->
  Z_to_dec (R / 10 ^ d) <> "" /\
  all_digits (Z_to_dec (R / 10 ^ d)) = true /\
  (d <> 0 ->
   all_digits (zpad d (Z_to_dec (R mod 10 ^ d))) = true /\
   String.length (zpad d (Z_to_dec (R mod 10 ^ d))) = Z.to_nat d) /\
  fixed_digits d R =
    Z_to_dec (R / 10 ^ d) ++
    (if d =? 0 then "" else "." ++ zpad d (Z_to_dec (R mod 10 ^ d))).
Proof.
  intros Hd HR.
  assert (Hp : 0 < 10 ^ d) by (apply Z.pow_pos_nonneg; lia).
  split; [apply Z_to_dec_nonempty|].
  split; [apply Z_to_dec_all_digits, Z.div_pos; lia|].
  destruct (Z.eqb_spec d 0) as [->|Hd0].
  - split; [intros; lia | reflexivity].
  - assert (Hm : 0 <= R mod 10 ^ d < 10 ^ d) by (apply Z.mod_pos_bound; lia).
    destruct (zpad_shape d (Z_to_dec (R mod 10 ^ d))) as [Ha Hl].
    + apply Z_to_dec_all_digits; lia.
    + apply Z_to_dec_length_le; lia.
    + split; [auto|]. unfold fixed_digits. rewrite (proj2 (Z.eqb_neq d 0) Hd0).
      reflexivity.
Qed.

(** [format_plain] on a finite value, for a precision the host accepts. *)
Lemma format_plain_finite (v : float) (cfg : locale_cfg) (d : Z) (grouping : bool) :
  is_finite v = true -> 0 <= d <= 2147483647 ->
  let R := scaled_round d v in
  let ip := Z_to_dec (R / 10 ^ d) in
  let frac := zpad d (Z_to_dec (R mod 10 ^ d)) in
  format_plain v cfg d grouping =
    Ok ((if py_lt_zero v then "-" else "") ++
        ((if grouping then group_thousands ip (thousands_sep cfg) else ip) ++
         (if 0 <? d then decimal_sep cfg ++ frac else ""))).
Proof.
  intros Hv Hd R ip frac.
  assert (HR : 0 <= R) by (apply scaled_round_nonneg; lia).
  destruct (fixed_digits_shape d R ltac:(lia) HR) as (Hne & Hip & Hfr & Hfix).
  fold ip frac in Hne, Hip, Hfr, Hfix.
  unfold format_plain. rewrite py_format_fixed_abs by assumption.
  fold R. rewrite Hfix. cbn [bind].
  assert (Hnoip : contains_char "." ip = false)
    by (apply all_digits_no_char; [reflexivity | exact Hip]).
  destruct (Z.eqb_spec d 0) as [->|Hd0].
  - rewrite append_nil_r, Hnoip. cbn [bind]. rewrite Z.ltb_irrefl.
    cbv iota. rewrite append_nil_r. reflexivity.
  - assert (Hnofr : contains_char "." frac = false)
      by (apply all_digits_no_char; [reflexivity | apply (Hfr Hd0)]).
    rewrite contains_char_app, Hnoip. simpl contains_char.
    try rewrite Ascii.eqb_refl. cbn [orb].
    change ("." ++ frac) with (String "." frac).
    rewrite py_split_app, py_split_no_sep by assumption. cbn [bind].
    destruct (Z.ltb_spec 0 d); [reflexivity | lia].
Qed.

Lemma format_plain_big (v : float) (cfg : locale_cfg) (d : Z) (grouping : bool) :
  2147483647 < d -> exists msg, format_plain v cfg d grouping = Raise (ValueError msg).
Proof.
  intros Hd. destruct (check_precision_big d Hd) as [msg Hm].
  exists msg. unfold format_plain, py_format_fixed. now rewrite Hm.
Qed.

(** ** C5: the shape of the plain renderer's output *)

(** Claim C5: for every locale profile, every finite value and every
    [decimals >= 0], an output of [format_plain] is an optional leading
    ["-"] (present exactly when [value < 0]), a non-empty run of ASCII
    digits (passed through [group_thousands] with the thousands separator
    when grouping is on, and left alone otherwise), then, exactly when
    [decimals > 0], the decimal separator followed by exactly [decimals]
    ASCII digits, never grouped.  An output is produced for every
    [decimals] the host formatter accepts ([<= 2147483647]); larger ones
    raise [ValueError]. *)
Theorem format_plain_shape (v : float) (cfg : locale_cfg) (d : Z) (grouping : bool) :
  is_finite v = true -> 0 <= d ->
  (forall s, format_plain v cfg d grouping = Ok s ->
   exists ip frac,
     ip <> "" /\ all_digits ip = true /\
     all_digits frac = true /\ String.length frac = Z.to_nat d /\
     s = (if py_lt_zero v then "-" else "") ++
         ((if grouping then group_thousands ip (thousands_sep cfg) else ip) ++
          (if 0 <? d then decimal_sep cfg ++ frac else ""))) /\
  (d <= 2147483647 -> exists s, format_plain v cfg d grouping = Ok s).
Proof.
  intros Hv Hd.
  destruct (Z.le_gt_cases d 2147483647) as [Hb|Hb].
  - split; [|intros _; eexists; apply format_plain_finite; [exact Hv | lia]].
    intros s Hs. rewrite format_plain_finite in Hs by (exact Hv || lia). injection Hs as <-.
    set (R := scaled_round d v).
    assert (HR : 0 <= R) by (apply scaled_round_nonneg; lia).
    destruct (fixed_digits_shape d R Hd HR) as (Hne & Hip & Hfr & _).
    destruct (Z.eqb_spec d 0) as [->|Hd0].
    + exists (Z_to_dec (R / 10 ^ 0)), "". repeat split; auto.
    + destruct (Hfr Hd0) as [Ha Hl].
      exists (Z_to_dec (R / 10 ^ d)), (zpad d (Z_to_dec (R mod 10 ^ d))).
      repeat split; auto.
  - split; [|intros; lia].
    intros s Hs. destruct (format_plain_big v cfg d grouping Hb) as [msg Hm].
    congruence.
Qed.

Lemma format_plain_shape_witness :
  exists s, format_plain (S754_finite false 2469 (-1)) US_cfg 2 true = Ok s.
Proof.
  apply (proj2 (format_plain_shape (S754_finite false 2469 (-1)) US_cfg 2 true
                  eq_refl ltac:(lia))).
  lia.
Defined.

(** ** The sign and the magnitude in [format_plain] *)

Lemma py_abs_idem (v : float) : py_abs (py_abs v) = py_abs v.
Proof. now destruct v. Qed.

Lemma py_lt_zero_abs (v : float) : py_lt_zero (py_abs v) = false.
Proof. now destruct v. Qed.

(** [format_plain] renders the magnitude and prefixes the sign. *)
Lemma format_plain_sign (v : float) (cfg : locale_cfg) (d : Z) (grouping : bool) :
  format_plain v cfg d grouping =
  match format_plain (py_abs v) cfg d grouping with
  | Ok r => Ok ((if py_lt_zero v then "-" else "") ++ r)
  | Raise e => Raise e
  end.
Proof.
  unfold format_plain. rewrite py_abs_idem, py_lt_zero_abs.
  destruct (py_format_fixed d (py_abs v)) as [ns|e]; cbn [bind]; [|reflexivity].
  destruct (contains_char "." ns);
    [destruct (py_split "." ns) as [|a [|b [|c l]]]|]; cbn [bind]; reflexivity.
Qed.

Lemma check_precision_ok_inv (d : Z) : check_precision d = Ok tt -> 0 <= d <= 2147483647.
Proof.
  unfold check_precision.
  destruct (Z.ltb_spec d 0); [discriminate|].
  destruct (Z.ltb_spec 9223372036854775807 d); [discriminate|].
  destruct (Z.ltb_spec 2147483647 d); [discriminate|]. lia.
Qed.

Lemma format_plain_ok_prec (v : float) (cfg : locale_cfg) (d : Z) (grouping : bool) (s : string) :
  format_plain v cfg d grouping = Ok s -> 0 <= d <= 2147483647.
Proof.
  unfold format_plain, py_format_fixed.
  destruct (check_precision d) as [[]|e] eqn:Hc; cbn [bind]; [|discriminate].
  intros _. now apply check_precision_ok_inv.
Qed.

Lemma group_thousands_head (ip sep : string) :
  ip <> "" -> all_digits ip = true ->
  exists c rest, group_thousands ip sep = String c rest /\ is_digit c = true.
Proof.
  intros Hne Hd.
  destruct (Nat.le_gt_cases (String.length ip) 3) as [H|H].
  - rewrite group_thousands_short by exact H.
    destruct ip as [|c rest]; [congruence|].
    exists c, rest. split; [reflexivity|]. simpl in Hd. now apply andb_true_iff in Hd.
  - destruct (group_thousands_long ip sep H) as (g & gs & Hip & Hg & _ & ->).
    destruct g as [|c g']; [simpl in Hg; lia|].
    rewrite Hip in Hd. simpl in Hd. apply andb_true_iff in Hd as [Hc _].
    destruct gs as [|g2 gs]; simpl; eexists; eexists; split; [reflexivity | exact Hc | reflexivity | exact Hc].
Qed.

Lemma format_plain_finite_unsigned (x : float) (cfg : locale_cfg) (d : Z)
    (grouping : bool) (body : string) :
  is_finite x = true -> py_lt_zero x = false ->
  format_plain x cfg d grouping = Ok body -> py_startswith "-" body = false.
Proof.
  intros Hx Hneg Hb. pose proof (format_plain_ok_prec _ _ _ _ _ Hb) as Hd.
  rewrite format_plain_finite in Hb by (exact Hx || lia).
  rewrite Hneg in Hb. injection Hb as <-.
  set (R := scaled_round d x).
  assert (HR : 0 <= R) by (apply scaled_round_nonneg; lia).
  destruct (fixed_digits_shape d R ltac:(lia) HR) as (Hne & Hip & _).
  assert (Hhead : exists c rest,
             (if grouping then group_thousands (Z_to_dec (R / 10 ^ d)) (thousands_sep cfg)
              else Z_to_dec (R / 10 ^ d)) = String c rest /\ is_digit c = true).
  { destruct grouping; [now apply group_thousands_head|].
    destruct (Z_to_dec (R / 10 ^ d)) as [|c rest]; [congruence|].
    exists c, rest. split; [reflexivity|]. simpl in Hip. now apply andb_true_iff in Hip. }
  destruct Hhead as (c & rest & Hcr & Hc). rewrite Hcr.
  cbn [String.append py_startswith].
  apply Ascii.eqb_neq. intros <-. discriminate.
Qed.

(** The rendering of a magnitude never starts with a ["-"]. *)
Lemma format_plain_abs_unsigned (v : float) (cfg : locale_cfg) (d : Z) (grouping : bool)
    (body : string) :
  format_plain (py_abs v) cfg d grouping = Ok body -> py_startswith "-" body = false.
Proof.
  intros Hb. pose proof (format_plain_ok_prec _ _ _ _ _ Hb) as Hd.
  destruct v as [s|s| |s m e].
  1, 4: refine (format_plain_finite_unsigned _ _ _ _ _ _ _ Hb);
    [reflexivity | apply py_lt_zero_abs].
  all: unfold format_plain, py_format_fixed in Hb;
    rewrite check_precision_ok in Hb by lia; cbn in Hb;
    destruct grouping, (0 <? d); injection Hb as <-; reflexivity.
Qed.

(** ** C4: the sign of a negative currency amount *)

(** Claim C4: for every negative value and every locale profile, a result
    of [format_currency] is ["-"] followed by the currency symbol and the
    unsigned grouped rendering of the magnitude (which never starts with
    ["-"]): the symbol before or after the magnitude as the profile's
    position says, separated by one space exactly when the profile's space
    flag is set.  So the sign is the first character, never between the
    symbol and the digits.  With [1234.5] and two decimals, the US profile
    gives ["$1,234.50"] and the EU profile ["1.234,50 €"]. *)
Theorem format_currency_negative_sign (v : float) (cfg : locale_cfg) (d : Z) (s : string) :
  py_lt_zero v = true ->
  format_currency v cfg d = Ok s ->
  exists body,
    format_plain (py_abs v) cfg d true = Ok body /\
    py_startswith "-" body = false /\
    s = "-" ++
        (if String.eqb (currency_symbol_position cfg) "before"
         then currency_symbol cfg ++ (if currency_symbol_space cfg then " " else "") ++ body
         else body ++ (if currency_symbol_space cfg then " " else "") ++ currency_symbol cfg) /\
    format_number (S754_finite false 5429388417957888 (-42)) "US" "currency" (Some 2)
      = Ok "$1,234.50" /\
    format_number (S754_finite false 5429388417957888 (-42)) "EU" "currency" (Some 2)
      = Ok "1.234,50 €".
Proof.
  intros Hneg Hs. unfold format_currency in Hs.
  rewrite format_plain_sign, Hneg in Hs.
  destruct (format_plain (py_abs v) cfg d true) as [body|e] eqn:Hb; cbn [bind] in Hs;
    [|discriminate].
  exists body. split; [reflexivity|].
  split; [exact (format_plain_abs_unsigned _ _ _ _ _ Hb)|].
  split; [|split; vm_compute; reflexivity].
  cbn [py_startswith py_drop1 String.append] in Hs.
  rewrite Ascii.eqb_refl in Hs. injection Hs as <-. reflexivity.
Qed.

Lemma format_currency_negative_sign_witness :
  exists body,
    format_plain (S754_finite false 2469 (-1)) US_cfg 2 true = Ok body /\
    py_startswith "-" body = false /\
    "-$1,234.50" = "-" ++ ("$" ++ "" ++ body).
Proof.
  destruct (format_currency_negative_sign (S754_finite true 2469 (-1)) US_cfg 2 "-$1,234.50"
              eq_refl ltac:(vm_compute; reflexivity))
    as (body & H1 & H2 & H3 & _).
  exists body. split; [exact H1|]. split; [exact H2|]. exact H3.
Defined.

(** ** Magnitudes that round to zero *)

Lemma valid_finite_exp (s : bool) (m : positive) (e : Z) :
  valid_binary prec emax (S754_finite s m e) = true -> -1074 <= e.
Proof.
  cbn [valid_binary]. unfold bounded, canonical_mantissa.
  intros H. apply andb_true_iff in H as [H _]. apply Z.eqb_eq in H.
  unfold fexp, emin in H. unfold prec, emax in H. lia.
Qed.

Lemma round_div_even_zero (n q : Z) :
  0 <= n -> 0 < q -> round_div_even n q = 0 -> 2 * n <= q.
Proof.
  intros Hn Hq. unfold round_div_even.
  destruct (Z.div_eucl n q) as [qt r] eqn:E.
  assert (Hqt : qt = n / q) by (unfold Z.div; now rewrite E).
  assert (Hr : r = n mod q) by (unfold Z.modulo; now rewrite E).
  assert (Hpos : 0 <= n / q) by (apply Z.div_pos; lia).
  pose proof (Z.div_mod n q ltac:(lia)) as Hdm.
  destruct (Z.compare_spec (2 * r) q) as [Hc|Hc|Hc]; intros Hz.
  - destruct (Z.even qt); [|lia].
    assert (n / q = 0) as Hq0 by lia. rewrite Hq0 in Hdm. lia.
  - assert (n / q = 0) as Hq0 by lia. rewrite Hq0 in Hdm. lia.
  - lia.
Qed.

(** A binary64 magnitude that rounds to zero at [d] decimals forces
    [d < 324]. *)
Lemma scaled_round_zero_small (d : Z) (s : bool) (m : positive) (e : Z) :
  valid_binary prec emax (S754_finite s m e) = true -> 0 <= d ->
  scaled_round d (S754_finite s m e) = 0 -> d < 324.
Proof.
  intros Hv Hd H0. pose proof (valid_finite_exp s m e Hv) as He.
  cbn [scaled_round] in H0. unfold frac_of in H0.
  assert (Hp : 1 <= 10 ^ d) by (apply (Z.pow_le_mono_r 10 0 d); lia).
  destruct (Z.leb_spec 0 e) as [He0|He0].
  - apply round_div_even_zero in H0; [| |lia].
    + assert (1 <= 2 ^ e) by (apply (Z.pow_le_mono_r 2 0 e); lia). nia.
    + assert (0 <= 2 ^ e) by (apply Z.pow_nonneg; lia). nia.
  - apply round_div_even_zero in H0; [| nia | apply Z.pow_pos_nonneg; lia].
    assert (H2 : 2 ^ (- e) <= 2 ^ 1074) by (apply Z.pow_le_mono_r; lia).
    destruct (Z.lt_ge_cases d 324) as [|Hd324]; [assumption|].
    assert (H3 : 10 ^ 324 <= 10 ^ d) by (apply Z.pow_le_mono_r; lia).
    assert (H4 : 2 ^ 1074 < 2 * 10 ^ 324) by (vm_compute; reflexivity).
    nia.
Qed.

Lemma repeat_char_snoc (n : nat) (c : ascii) :
  repeat_char n c ++ str1 c = repeat_char (S n) c.
Proof. induction n; simpl; [reflexivity|]. now rewrite IHn. Qed.

Lemma zpad_zero (d : Z) : 0 < d -> zpad d (Z_to_dec 0) = repeat_char (Z.to_nat d) "0".
Proof.
  intros Hd. unfold zpad. change (Z_to_dec 0) with (str1 "0").
  change (String.length (str1 "0")) with 1%nat.
  assert (Hn : (0 < Z.to_nat d)%nat) by lia.
  destruct (Z.to_nat d) as [|k]; [lia|].
  rewrite Nat.sub_succ, Nat.sub_0_r. apply repeat_char_snoc.
Qed.

(** The rendering of a finite non-zero value whose magnitude rounds to
    zero. *)
Lemma format_plain_round_zero (s : bool) (m : positive) (e : Z) (cfg : locale_cfg)
    (d : Z) (grouping : bool) :
  valid_binary prec emax (S754_finite s m e) = true -> 0 <= d ->
  scaled_round d (S754_finite s m e) = 0 ->
  format_plain (S754_finite s m e) cfg d grouping =
    Ok ((if s then "-" else "") ++
        ("0" ++ (if 0 <? d then decimal_sep cfg ++ repeat_char (Z.to_nat d) "0" else ""))).
Proof.
  intros Hv Hd H0.
  pose proof (scaled_round_zero_small d s m e Hv Hd H0) as Hsmall.
  rewrite format_plain_finite by (reflexivity || lia). rewrite H0.
  rewrite Z.div_0_l, Z.mod_0_l by (apply Z.pow_nonzero; lia).
  replace (py_lt_zero (S754_finite s m e)) with s by (destruct s; reflexivity).
  destruct (Z.ltb_spec 0 d) as [Hpos|Hnp].
  - rewrite zpad_zero by exact Hpos. destruct grouping; reflexivity.
  - destruct grouping; reflexivity.
Qed.

(** Negative zero is not below zero: it renders unsigned. *)
Lemma format_plain_neg_zero (cfg : locale_cfg) (d : Z) (grouping : bool) :
  0 <= d <= 2147483647 ->
  format_plain (S754_zero true) cfg d grouping =
    Ok ("0" ++ (if 0 <? d then decimal_sep cfg ++ repeat_char (Z.to_nat d) "0" else "")).
Proof.
  intros Hd.
  rewrite format_plain_finite by (reflexivity || lia). cbn [scaled_round].
  rewrite Z.div_0_l, Z.mod_0_l by (apply Z.pow_nonzero; lia).
  destruct (Z.ltb_spec 0 d) as [Hpos|Hnp].
  - rewrite zpad_zero by exact Hpos. destruct grouping; reflexivity.
  - destruct grouping; reflexivity.
Qed.

(** ** C10: a negative value that rounds to zero keeps its sign *)

(** Claim C10: the sign is taken from the value before rounding.  A finite
    negative (non-zero) binary64 value whose magnitude rounds to zero at
    [d] decimals renders as ["-0"] (followed, when [d > 0], by the decimal
    separator and [d] zeros), and as ["-$0"...] with the US currency
    renderer; [-0.4] at 0 decimals gives ["-0"] and ["-$0"].  Negative zero
    is not below zero and renders as ["0"]. *)
Theorem format_negative_rounds_to_zero (m : positive) (e : Z) (cfg : locale_cfg)
    (d : Z) (grouping : bool) :
  valid_binary prec emax (S754_finite true m e) = true -> 0 <= d ->
  scaled_round d (S754_finite true m e) = 0 ->
  format_plain (S754_finite true m e) cfg d grouping =
    Ok ("-" ++ "0" ++
        (if 0 <? d then decimal_sep cfg ++ repeat_char (Z.to_nat d) "0" else "")) /\
  format_currency (S754_finite true m e) US_cfg d =
    Ok ("-" ++ "$" ++ "0" ++
        (if 0 <? d then "." ++ repeat_char (Z.to_nat d) "0" else "")) /\
  format_plain (S754_zero true) cfg 0 grouping = Ok "0" /\
  format_number (S754_finite true 7205759403792794 (-54)) "US" "rounded" None = Ok "-0" /\
  format_number (S754_finite true 7205759403792794 (-54)) "US" "currency" (Some 0)
    = Ok "-$0".
Proof.
  intros Hv Hd H0.
  split; [rewrite format_plain_round_zero by assumption; reflexivity|].
  split.
  { unfold format_currency. rewrite format_plain_round_zero by assumption.
    reflexivity. }
  split; [rewrite format_plain_neg_zero by lia; now destruct grouping|].
  split; vm_compute; reflexivity.
Qed.

Lemma format_negative_rounds_to_zero_witness :
  format_plain (S754_finite true 7205759403792794 (-54)) EU_cfg 0 true = Ok ("-" ++ "0" ++ "").
Proof.
  exact (proj1 (format_negative_rounds_to_zero 7205759403792794 (-54) EU_cfg 0 true
                  eq_refl ltac:(lia) ltac:(vm_compute; reflexivity))).
Defined.

(** ** The ['e'] presentation of a finite value *)

Lemma zpad_shape_ge (w : Z) (s : string) :
  all_digits s = true -> s <> "" ->
  all_digits (zpad w s) = true /\ (Z.to_nat w <= String.length (zpad w s))%nat /\
  zpad w s <> "".
Proof.
  intros Hs Hne. unfold zpad.
  rewrite all_digits_append, repeat_zero_all_digits, Hs, length_append, repeat_char_length.
  split; [reflexivity|]. split; [lia|].
  intros E. apply (f_equal String.length) in E.
  rewrite length_append in E. destruct s; [congruence|]. simpl in E. lia.
Qed.

Lemma sci_parts_nonneg (p n q : Z) :
  0 <= p -> 0 <= n -> 0 < q -> 0 <= fst (sci_parts p n q).
Proof.
  intros Hp Hn Hq. unfold sci_parts.
  set (E := floor_log10 n q).
  set (M := if 0 <=? p - E then round_div_even (n * 10 ^ (p - E)) q
            else round_div_even n (q * 10 ^ (E - p))).
  assert (HM : 0 <= M).
  { subst M. destruct (Z.leb_spec 0 (p - E)).
    - apply round_div_even_nonneg; [|lia].
      apply Z.mul_nonneg_nonneg; [lia | apply Z.pow_nonneg; lia].
    - apply round_div_even_nonneg; [lia|].
      apply Z.mul_pos_pos; [lia | apply Z.pow_pos_nonneg; lia]. }
  destruct (M =? 10 ^ (p + 1)); cbn [fst]; [apply Z.pow_nonneg; lia | exact HM].
Qed.

Lemma sci_digits_shape (M E : Z) :
  0 <= M ->
  exists c frac es ed,
    is_digit c = true /\ all_digits frac = true /\ (3 <= String.length frac)%nat /\
    (es = "+" \/ es = "-") /\ all_digits ed = true /\ (2 <= String.length ed)%nat /\
    sci_digits 3 M E = str1 c ++ "." ++ frac ++ "e" ++ es ++ ed.
Proof.
  intros HM. unfold sci_digits.
  destruct (zpad_shape_ge (3 + 1) (Z_to_dec M)) as (Hd & Hl & Hne);
    [apply Z_to_dec_all_digits; lia | apply Z_to_dec_nonempty |].
  destruct (zpad_shape_ge 2 (Z_to_dec (Z.abs E))) as (Hd2 & Hl2 & _);
    [apply Z_to_dec_all_digits; lia | apply Z_to_dec_nonempty |].
  destruct (zpad (3 + 1) (Z_to_dec M)) as [|c rest]; [congruence|].
  cbn [all_digits String.length] in Hd, Hl. apply andb_true_iff in Hd as [Hc Hr].
  exists c, rest, (if E <? 0 then "-" else "+"), (zpad 2 (Z_to_dec (Z.abs E))).
  split; [exact Hc|]. split; [exact Hr|].
  split; [change (Z.to_nat (3 + 1)) with 4%nat in Hl; lia|].
  split; [destruct (E <? 0); auto|]. split; [exact Hd2|].
  split; [change (Z.to_nat 2) with 2%nat in Hl2; lia|].
  reflexivity.
Qed.

Lemma py_format_sci_finite (x : float) :
  is_finite x = true ->
  exists sg c frac es ed,
    (sg = "" \/ sg = "-") /\
    is_digit c = true /\ all_digits frac = true /\ (3 <= String.length frac)%nat /\
    (es = "+" \/ es = "-") /\ all_digits ed = true /\ (2 <= String.length ed)%nat /\
    py_format_sci 3 x = Ok (sg ++ str1 c ++ "." ++ frac ++ "e" ++ es ++ ed).
Proof.
  intros Hx. unfold py_format_sci. rewrite check_precision_ok by lia. cbn [bind].
  destruct x as [s| | |s m e]; try discriminate.
  - destruct (sci_digits_shape 0 0 ltac:(lia)) as (c & frac & es & ed & H1 & H2 & H3 & H4 & H5 & H6 & H7).
    exists (sign_str s), c, frac, es, ed. rewrite H7.
    repeat split; auto. destruct s; auto.
  - pose proof (frac_of_pos m e) as [Hn Hq].
    destruct (frac_of m e) as [n q]. cbn [fst snd] in Hn, Hq.
    pose proof (sci_parts_nonneg 3 n q ltac:(lia) Hn Hq) as HM.
    destruct (sci_parts 3 n q) as [M E]. cbn [fst] in HM.
    destruct (sci_digits_shape M E HM) as (c & frac & es & ed & H1 & H2 & H3 & H4 & H5 & H6 & H7).
    exists (sign_str s), c, frac, es, ed. rewrite H7.
    repeat split; auto. destruct s; auto.
Qed.

Lemma py_replace_first_app (c : ascii) (new a b : string) :
  contains_char c a = false -> py_replace_first c new (a ++ String c b) = a ++ new ++ b.
Proof.
  induction a as [|x a IH]; simpl; intros H.
  - now rewrite Ascii.eqb_refl.
  - apply orb_false_iff in H as [Hx Ha]. rewrite Hx, IH by exact Ha. reflexivity.
Qed.

(** ** The scientific renderer on a finite value *)

Lemma format_scientific_shape (x : float) (cfg : locale_cfg) :
  is_finite x = true ->
  exists sg c frac es ed,
    (sg = "" \/ sg = "-") /\
    is_digit c = true /\ all_digits frac = true /\ (3 <= String.length frac)%nat /\
    (es = "+" \/ es = "-") /\ all_digits ed = true /\ (2 <= String.length ed)%nat /\
    py_format_sci 3 x = Ok (sg ++ str1 c ++ "." ++ frac ++ "e" ++ es ++ ed) /\
    (decimal_sep cfg <> "." ->
     format_scientific x cfg 3 = Ok (sg ++ str1 c ++ decimal_sep cfg ++ frac ++ "e" ++ es ++ ed)) /\
    (decimal_sep cfg = "." -> format_scientific x cfg 3 = py_format_sci 3 x).
Proof.
  intros Hx.
  destruct (py_format_sci_finite x Hx)
    as (sg & c & frac & es & ed & Hsg & Hc & Hfr & Hlf & Hes & Hed & Hle & Hraw).
  exists sg, c, frac, es, ed.
  do 8 (split; [assumption|]).
  unfold format_scientific. rewrite Hraw. cbn [bind].
  split; intros Hsep.
  - destruct (String.eqb_spec (decimal_sep cfg) ".") as [|_]; [contradiction|].
    cbn [negb].
    assert (HA : contains_char "e" (sg ++ str1 c ++ "." ++ frac) = false).
    { rewrite !contains_char_app.
      rewrite (all_digits_no_char "e" (str1 c)), (all_digits_no_char "e" frac) by
        (reflexivity || assumption || (cbn; now rewrite Hc)).
      destruct Hsg as [->| ->]; reflexivity. }
    assert (HB : contains_char "e" (es ++ ed) = false).
    { rewrite contains_char_app, (all_digits_no_char "e" ed) by (reflexivity || assumption).
      destruct Hes as [->| ->]; reflexivity. }
    replace (sg ++ str1 c ++ "." ++ frac ++ "e" ++ es ++ ed)
      with ((sg ++ str1 c ++ "." ++ frac) ++ String "e" (es ++ ed))
      by (rewrite !append_assoc; reflexivity).
    rewrite py_split_app, py_split_no_sep by assumption. cbn [bind].
    replace (sg ++ str1 c ++ "." ++ frac) with ((sg ++ str1 c) ++ String "." frac)
      by (rewrite !append_assoc; reflexivity).
    rewrite py_replace_first_app.
    + rewrite !append_assoc. reflexivity.
    + rewrite contains_char_app, (all_digits_no_char "." (str1 c))
        by (reflexivity || (cbn; now rewrite Hc)).
      destruct Hsg as [->| ->]; reflexivity.
  - rewrite Hsep. reflexivity.
Qed.

(** ** C6: the locale separator in scientific notation *)

(** Claim C6: for every finite value the host form is
    [sign d . digits e ±digits]; [format_scientific] with three digits
    replaces exactly the mantissa's decimal point by the locale's decimal
    separator when that separator is not ["."], leaving the sign, the
    digits, the exponent marker ["e"], the exponent sign and the exponent
    digits as they are; when the separator is ["."] the host form is
    returned unchanged. *)
Theorem format_scientific_substitution (x : float) (cfg : locale_cfg) :
  is_finite x = true ->
  exists sg c frac es ed,
    (sg = "" \/ sg = "-") /\
    is_digit c = true /\ all_digits frac = true /\ (3 <= String.length frac)%nat /\
    (es = "+" \/ es = "-") /\ all_digits ed = true /\ (2 <= String.length ed)%nat /\
    py_format_sci 3 x = Ok (sg ++ str1 c ++ "." ++ frac ++ "e" ++ es ++ ed) /\
    (decimal_sep cfg <> "." ->
     format_scientific x cfg 3 = Ok (sg ++ str1 c ++ decimal_sep cfg ++ frac ++ "e" ++ es ++ ed)) /\
    (decimal_sep cfg = "." -> format_scientific x cfg 3 = py_format_sci 3 x).
Proof. exact (format_scientific_shape x cfg). Qed.

Lemma format_scientific_substitution_witness :
  format_scientific (S754_finite false 5429686605511341 (-42)) EU_cfg 3 = Ok "1,235e+03" /\
  exists sg c frac es ed,
    format_scientific (S754_finite false 5429686605511341 (-42)) EU_cfg 3
    = Ok (sg ++ str1 c ++ "," ++ frac ++ "e" ++ es ++ ed).
Proof.
  split; [vm_compute; reflexivity|].
  destruct (format_scientific_substitution (S754_finite false 5429686605511341 (-42)) EU_cfg
              eq_refl) as (sg & c & frac & es & ed & _ & _ & _ & _ & _ & _ & _ & _ & H & _).
  exists sg, c, frac, es, ed. apply H. discriminate.
Defined.

(** ** C7: default and explicit [decimals] per style *)

(** Claim C7: with [decimals] absent the dispatcher renders currency with
    2 decimals and grouped ([comma]) and rounded ([round]) with 0; an
    explicit [decimals] is used as given for these styles; the scientific
    style ([sci]) always uses 3 mantissa digits whatever [decimals] is, so
    [format(1234.5678, "US", "scientific", decimals)] is ["1.235e+03"] for
    every [decimals]. *)
Theorem format_number_decimals (v : float) (locale : string) (cfg : locale_cfg) :
  dict_get LOCALE_CONFIG locale = Some cfg ->
  format_number v locale "currency" None = format_currency v cfg 2 /\
  format_number v locale "grouped" None = format_plain v cfg 0 true /\
  format_number v locale "comma" None = format_plain v cfg 0 true /\
  format_number v locale "rounded" None = format_plain v cfg 0 false /\
  format_number v locale "round" None = format_plain v cfg 0 false /\
  (forall d,
     format_number v locale "currency" (Some d) = format_currency v cfg d /\
     format_number v locale "grouped" (Some d) = format_plain v cfg d true /\
     format_number v locale "comma" (Some d) = format_plain v cfg d true /\
     format_number v locale "rounded" (Some d) = format_plain v cfg d false /\
     format_number v locale "round" (Some d) = format_plain v cfg d false) /\
  (forall dec,
     format_number v locale "scientific" dec = format_scientific v cfg 3 /\
     format_number v locale "sci" dec = format_scientific v cfg 3 /\
     format_number (S754_finite false 5429686605511341 (-42)) "US" "scientific" dec
       = Ok "1.235e+03").
Proof.
  intros Hl. unfold format_number. rewrite Hl.
  repeat split; intros; try reflexivity.
Qed.

Lemma format_number_decimals_witness :
  format_number (S754_finite false 2469 (-1)) "EU" "currency" None
  = format_currency (S754_finite false 2469 (-1)) EU_cfg 2.
Proof.
  exact (proj1 (format_number_decimals (S754_finite false 2469 (-1)) "EU" EU_cfg eq_refl)).
Defined.

(** ** Rounding of the fixed-point rendering *)

(** Rounding as the spec's words put it: half away from zero, on the exact
    value [n / q] of a non-negative fraction. *)
Definition round_half_away (n q : Z) : Z := (2 * n + q) / (2 * q).

Lemma round_div_even_spec (n q : Z) :
  0 < q ->
  Z.abs (2 * (round_div_even n q * q - n)) <= q /\
  (Z.abs (2 * (round_div_even n q * q - n)) = q -> Z.even (round_div_even n q) = true).
Proof.
  intros Hq. unfold round_div_even.
  destruct (Z.div_eucl n q) as [qt r] eqn:E.
  assert (Hqt : qt = n / q) by (unfold Z.div; now rewrite E).
  assert (Hr : r = n mod q) by (unfold Z.modulo; now rewrite E).
  pose proof (Z.div_mod n q ltac:(lia)) as Hdm.
  pose proof (Z.mod_pos_bound n q Hq) as Hb.
  rewrite <- Hqt, <- Hr in Hdm. rewrite <- Hr in Hb.
  destruct (Z.compare_spec (2 * r) q) as [Hc|Hc|Hc].
  - destruct (Z.even qt) eqn:Hev.
    + split; intros; [|exact Hev].
      replace (qt * q - n) with (- r) by lia. lia.
    + rewrite Z.even_add, Hev. split; [|reflexivity].
      replace ((qt + 1) * q - n) with (q - r) by lia. lia.
  - split; [replace (qt * q - n) with (- r) by lia; lia|].
    replace (qt * q - n) with (- r) by lia. intros; lia.
  - split; [replace ((qt + 1) * q - n) with (q - r) by lia; lia|].
    replace ((qt + 1) * q - n) with (q - r) by lia. intros; lia.
Qed.

(** ** C2: rounding of the plain renderer *)

(** Claim C2 (corrected): the plain renderer rounds the exact binary value
    of [abs(value)] to [d] fractional digits to nearest, an exact tie going
    to the even last digit (the host's fixed-point formatting), not away
    from zero.  2.5 is exact in binary: at 0 decimals it renders ["2"],
    where half-away-from-zero rounding gives 3; likewise 1234.5 renders
    ["1234"] with the rounded style. *)
Lemma format_plain_tie_counterexample :
  format_plain (S754_finite false 5 (-1)) US_cfg 0 false = Ok "2" /\
  round_half_away (fst (frac_of 5 (-1)) * 10 ^ 0) (snd (frac_of 5 (-1))) = 3 /\
  format_plain (S754_finite false 5 (-1)) US_cfg 0 false <> Ok (Z_to_dec 3) /\
  format_number (S754_finite false 5429388417957888 (-42)) "US" "rounded" None = Ok "1234".
Proof.
  split; [vm_compute; reflexivity|].
  split; [vm_compute; reflexivity|].
  split; [vm_compute; discriminate|].
  vm_compute; reflexivity.
Qed.

(** Claim C2, as amended: for every finite value and [0 <= d <= 2147483647]
    (the precisions the host accepts), the plain renderer writes the
    integer [R] nearest to [abs(value) * 10^d], computed on the exact binary
    value, with an exact tie going to the even [R]: the digits of
    [R / 10^d], then (when [d > 0]) the decimal separator and the [d] digits
    of [R mod 10^d].  The float written 2.345 lies slightly above 2.345 and
    renders as ["2.35"] at 2 decimals. *)
Theorem format_plain_round_half_even (v : float) (cfg : locale_cfg) (d : Z) (grouping : bool) :
  is_finite v = true -> 0 <= d <= 2147483647 ->
  format_plain v cfg d grouping =
    Ok ((if py_lt_zero v then "-" else "") ++
        ((if grouping
          then group_thousands (Z_to_dec (scaled_round d v / 10 ^ d)) (thousands_sep cfg)
          else Z_to_dec (scaled_round d v / 10 ^ d)) ++
         (if 0 <? d
          then decimal_sep cfg ++ zpad d (Z_to_dec (scaled_round d v mod 10 ^ d))
          else ""))) /\
  (forall s m e, v = S754_finite s m e ->
     let n := fst (frac_of m e) * 10 ^ d in
     let q := snd (frac_of m e) in
     Z.abs (2 * (scaled_round d v * q - n)) <= q /\
     (Z.abs (2 * (scaled_round d v * q - n)) = q -> Z.even (scaled_round d v) = true)) /\
  format_plain (S754_finite false 5280470563091907 (-51)) US_cfg 2 false = Ok "2.35".
Proof.
  intros Hv Hd.
  split; [apply format_plain_finite; assumption|].
  split; [|vm_compute; reflexivity].
  intros s m e -> n q. subst n q.
  pose proof (frac_of_pos m e) as [_ Hq].
  cbn [scaled_round]. destruct (frac_of m e) as [n q]. cbn [fst snd] in *.
  now apply round_div_even_spec.
Qed.

Lemma format_plain_round_half_even_witness :
  format_plain (S754_finite false 5 (-1)) US_cfg 0 false =
    Ok ("" ++ (Z_to_dec (scaled_round 0 (S754_finite false 5 (-1)) / 10 ^ 0) ++ "")).
Proof.
  exact (proj1 (format_plain_round_half_even (S754_finite false 5 (-1)) US_cfg 0 false
                  eq_refl ltac:(lia))).
Defined.

(** ** The outcomes of the dispatcher *)

(** The style names [format_number] recognises after [style.lower()]. *)
Definition sci_style (style : string) : bool :=
  String.eqb style "sci" || String.eqb style "scientific".

Definition known_style (style : string) : bool :=
  String.eqb style "currency" ||
  (String.eqb style "comma" || String.eqb style "grouped") ||
  (String.eqb style "round" || String.eqb style "rounded") ||
  sci_style style.

Lemma check_precision_neg (d : Z) :
  d < 0 -> check_precision d = Raise (ValueError "Format specifier missing precision").
Proof. intros Hd. unfold check_precision. destruct (Z.ltb_spec d 0); [reflexivity | lia]. Qed.


Lemma format_plain_prec_error (v : float) (cfg : locale_cfg) (d : Z) (grouping : bool) (e : exn) :
  check_precision d = Raise e -> format_plain v cfg d grouping = Raise e.
Proof. intros He. unfold format_plain, py_format_fixed. now rewrite He. Qed.

Lemma format_currency_prec_error (v : float) (cfg : locale_cfg) (d : Z) (e : exn) :
  check_precision d = Raise e -> format_currency v cfg d = Raise e.
Proof.
  intros He. unfold format_currency. now rewrite (format_plain_prec_error v cfg d true e He).
Qed.

(** [format_plain] returns a string for every value, [inf] and [nan]
    included, once the host accepts the precision. *)
Lemma format_plain_total (v : float) (cfg : locale_cfg) (d : Z) (grouping : bool) :
  0 <= d <= 2147483647 -> exists s, format_plain v cfg d grouping = Ok s.
Proof.
  intros Hd.
  destruct (is_finite v) eqn:Hv; [eexists; apply format_plain_finite; assumption|].
  unfold format_plain, py_format_fixed. rewrite check_precision_ok by exact Hd.
  destruct v; try discriminate; eexists; reflexivity.
Qed.



Lemma format_scientific_nonfinite (v : float) (cfg : locale_cfg) :
  is_finite v = false -> decimal_sep cfg <> "." ->
  format_scientific v cfg 3 = Raise (ValueError "not enough values to unpack (expected 2, got 1)").
Proof.
  intros Hv Hs. unfold format_scientific, py_format_sci. rewrite check_precision_ok by lia.
  cbn [bind]. destruct (String.eqb_spec (decimal_sep cfg) ".") as [|_]; [contradiction|].
  destruct v as [| [|] | |]; try discriminate; reflexivity.
Qed.

(** A known style other than [sci] renders with [format_currency] or
    [format_plain] at the given [decimals], or at a default of 0 or 2. *)
Lemma format_number_renderer (v : float) (loc st : string) (dec : option Z) (cfg : locale_cfg) :
  dict_get LOCALE_CONFIG loc = Some cfg ->
  known_style (py_lower st) = true -> sci_style (py_lower st) = false ->
  exists d0 g, 0 <= d0 <= 2 /\
    (format_number v loc st dec = format_currency v cfg (match dec with None => d0 | Some d => d end) \/
     format_number v loc st dec = format_plain v cfg (match dec with None => d0 | Some d => d end) g).
Proof.
  intros Hl Hk Hs. unfold format_number. rewrite Hl. unfold known_style in Hk.
  destruct (String.eqb (py_lower st) "currency"); [exists 2, true; split; [lia | now left]|].
  destruct (String.eqb (py_lower st) "comma" || String.eqb (py_lower st) "grouped")%bool;
    [exists 0, true; split; [lia | now right]|].
  destruct (String.eqb (py_lower st) "round" || String.eqb (py_lower st) "rounded")%bool;
    [exists 0, false; split; [lia | now right]|].
  rewrite Hs in Hk. discriminate.
Qed.



Lemma format_number_neg_decimals (v : float) (loc st : string) (cfg : locale_cfg) (d : Z) :
  dict_get LOCALE_CONFIG loc = Some cfg ->
  known_style (py_lower st) = true -> sci_style (py_lower st) = false -> d < 0 ->
  format_number v loc st (Some d) = Raise (ValueError "Format specifier missing precision").
Proof.
  intros Hl Hk Hs Hd.
  destruct (format_number_renderer v loc st (Some d) cfg Hl Hk Hs) as (d0 & g & _ & [E|E]);
    rewrite E.
  - apply format_currency_prec_error, check_precision_neg, Hd.
  - apply format_plain_prec_error, check_precision_neg, Hd.
Qed.


(** ** C1: the failure modes of the dispatcher *)




(** ** C8: a negative [decimals] *)

(** Claim C8 (corrected): a request with a negative [decimals] is not
    rejected with the endpoint's own [decimals] error ("decimals must be an
    integer"): the integer reaches [format_number], the host formatter
    raises [ValueError("Format specifier missing precision")], and the
    handler answers 400 with that message. *)
Lemma format_endpoint_negative_decimals_counterexample :
  format_endpoint_get [("value", "1"); ("decimals", "-1")]
    = ErrorResponse 400 "Format specifier missing precision" /\
  format_endpoint_get [("value", "1"); ("decimals", "-1")]
    <> ErrorResponse 400 "decimals must be an integer".
Proof. split; vm_compute; [reflexivity | discriminate]. Qed.

(** Claim C8, as amended: for a locale of [LOCALE_CONFIG], a style that
    lower-cases to [currency], [comma], [grouped], [round] or [rounded], and
    a negative [decimals], [format_number] raises
    [ValueError("Format specifier missing precision")] for every value, and
    a request whose value [float()] accepts gets the answer 400 with that
    message. *)
Theorem format_negative_decimals_error (value : pyval) (loc st : string) (cfg : locale_cfg)
    (f : float) (d : Z) :
  dict_get LOCALE_CONFIG loc = Some cfg ->
  known_style (py_lower st) = true -> sci_style (py_lower st) = false -> d < 0 ->
  value <> PyNone -> py_float value = Ok f ->
  format_number f loc st (Some d) = Raise (ValueError "Format specifier missing precision") /\
  format_endpoint_body value loc st (Some d)
    = ErrorResponse 400 "Format specifier missing precision".
Proof.
  intros Hl Hk Hs Hd Hv Hf.
  assert (E : format_number f loc st (Some d)
              = Raise (ValueError "Format specifier missing precision"))
    by (apply format_number_neg_decimals with (cfg := cfg); assumption).
  split; [exact E|].
  unfold format_endpoint_body.
  destruct value; [contradiction | | | | |]; rewrite Hf, E; reflexivity.
Qed.

Lemma format_negative_decimals_error_witness :
  format_endpoint_body (PyStr "1") "US" "currency" (Some (-1))
    = ErrorResponse 400 "Format specifier missing precision".
Proof.
  exact (proj2 (format_negative_decimals_error (PyStr "1") "US" "currency" US_cfg
                  (S754_finite false 4503599627370496 (-52)) (-1)
                  eq_refl eq_refl eq_refl ltac:(lia) ltac:(discriminate)
                  ltac:(vm_compute; reflexivity))).
Defined.

(** * Further properties of the formatter *)

(** ** Character maps and separator removal *)

Fixpoint string_map (f : ascii -> ascii) (s : string) : string :=
  match s with
  | EmptyString => EmptyString
  | String c s' => String (f c) (string_map f s')
  end.

(** The string with every occurrence of [c] deleted. *)
Fixpoint remove_char (c : ascii) (s : string) : string :=
  match s with
  | EmptyString => EmptyString
  | String x s' => if Ascii.eqb c x then remove_char c s' else String x (remove_char c s')
  end.

Definition result_map {A B} (f : A -> B) (r : result A) : result B :=
  match r with
  | Ok a => Ok (f a)
  | Raise e => Raise e
  end.

Lemma string_map_app (f : ascii -> ascii) (a b : string) :
  string_map f (a ++ b) = string_map f a ++ string_map f b.
Proof. induction a; simpl; congruence. Qed.

Lemma string_map_str_rev (f : ascii -> ascii) (s : string) :
  string_map f (str_rev s) = str_rev (string_map f s).
Proof. induction s; simpl; [reflexivity|]. now rewrite string_map_app, IHs. Qed.

Lemma length_string_map (f : ascii -> ascii) (s : string) :
  String.length (string_map f s) = String.length s.
Proof. induction s; simpl; congruence. Qed.

Lemma string_map_concat (f : ascii -> ascii) (sep : string) (l : list string) :
  string_map f (String.concat sep l) = String.concat (string_map f sep) (map (string_map f) l).
Proof.
  induction l as [|x l IH]; [reflexivity|].
  destruct l as [|y l]; [reflexivity|].
  change (String.concat sep (x :: y :: l)) with (x ++ sep ++ String.concat sep (y :: l)).
  rewrite !string_map_app, IH. reflexivity.
Qed.

Lemma chunks3_map (f : ascii -> ascii) (n : nat) (s : string) :
  (String.length s <= n)%nat -> chunks3 (string_map f s) = map (string_map f) (chunks3 s).
Proof.
  revert s; induction n as [|n IH]; intros s Hl.
  - destruct s; [reflexivity | simpl in Hl; lia].
  - destruct s as [|a [|b [|c rest]]]; try reflexivity.
    simpl in Hl. simpl. rewrite IH by lia. reflexivity.
Qed.

Lemma group_thousands_map (f : ascii -> ascii) (s sep : string) :
  string_map f (group_thousands s sep) = group_thousands (string_map f s) (string_map f sep).
Proof.
  unfold group_thousands. rewrite length_string_map.
  destruct (Nat.leb (String.length s) 3); [reflexivity|].
  rewrite string_map_concat, map_map, <- string_map_str_rev.
  rewrite (chunks3_map f (String.length (str_rev s))) by lia.
  rewrite <- map_rev, map_map. f_equal. apply map_ext. intros x. apply string_map_str_rev.
Qed.

Lemma remove_char_app (c : ascii) (a b : string) :
  remove_char c (a ++ b) = remove_char c a ++ remove_char c b.
Proof. induction a as [|x a IH]; simpl; [reflexivity|]. destruct (Ascii.eqb c x); simpl; congruence. Qed.

Lemma remove_char_absent (c : ascii) (s : string) :
  contains_char c s = false -> remove_char c s = s.
Proof.
  induction s as [|x s IH]; simpl; [reflexivity|].
  intros H. apply orb_false_iff in H as [Hx Hs]. rewrite Hx, IH by exact Hs. reflexivity.
Qed.

Lemma remove_char_sep_concat (c : ascii) (l : list string) :
  remove_char c (String.concat (str1 c) l) = remove_char c (String.concat "" l).
Proof.
  induction l as [|x l IH]; [reflexivity|].
  destruct l as [|y l]; [reflexivity|].
  change (String.concat (str1 c) (x :: y :: l)) with (x ++ str1 c ++ String.concat (str1 c) (y :: l)).
  change (String.concat "" (x :: y :: l)) with (x ++ "" ++ String.concat "" (y :: l)).
  rewrite !remove_char_app, IH.
  replace (remove_char c (str1 c)) with "" by (unfold str1; simpl; now rewrite Ascii.eqb_refl).
  reflexivity.
Qed.



Lemma remove_sep_group_thousands (s : string) (c : ascii) :
  contains_char c s = false -> remove_char c (group_thousands s (str1 c)) = s.
Proof.
  intros Hc.
  destruct (Nat.le_gt_cases (String.length s) 3) as [H|H].
  - rewrite group_thousands_short by exact H. now apply remove_char_absent.
  - destruct (group_thousands_long s (str1 c) H) as (g & gs & Hs & _ & _ & ->).
    rewrite remove_char_sep_concat, concat_empty_sep. cbn [fold_right].
    rewrite <- concat_empty_sep, <- Hs. now apply remove_char_absent.
Qed.

(** ** Extra properties of [group_thousands] *)

(** Deleting the separator from the grouped string gives the digits back,
    when the separator is one character that does not occur in them. *)
Theorem group_thousands_remove_sep (s : string) (c : ascii) :
  contains_char c s = false -> remove_char c (group_thousands s (str1 c)) = s.
Proof. exact (remove_sep_group_thousands s c). Qed.

Lemma group_thousands_remove_sep_witness :
  remove_char "," (group_thousands "1234567" ",") = "1234567".
Proof. exact (group_thousands_remove_sep "1234567" "," eq_refl). Defined.




(** ** [inf] and [nan] in the plain renderer *)

Lemma format_plain_nonfinite (v : float) (cfg : locale_cfg) (d : Z) (grouping : bool) :
  is_finite v = false -> 0 <= d <= 2147483647 ->
  format_plain v cfg d grouping =
    Ok ((if py_lt_zero v then "-" else "") ++
        ((match v with S754_nan => "nan" | _ => "inf" end) ++
         (if 0 <? d then decimal_sep cfg else ""))).
Proof.
  intros Hv Hd. unfold format_plain, py_format_fixed. rewrite check_precision_ok by exact Hd.
  destruct (0 <? d), grouping;
    destruct v as [| [|] | |]; try discriminate; cbn; rewrite ?append_nil_r; reflexivity.
Qed.

(** Both renderers fail alike outside the precisions the host accepts. *)
Lemma format_plain_prec_cases (v : float) (cfg : locale_cfg) (d : Z) (grouping : bool) :
  0 <= d <= 2147483647 \/
  exists e, forall cfg' grouping', format_plain v cfg' d grouping' = Raise e.
Proof.
  destruct (check_precision d) as [[]|e] eqn:Hc.
  - left. now apply check_precision_ok_inv.
  - right. exists e. intros cfg' g'. now apply format_plain_prec_error.
Qed.

(** ** Negation *)

Lemma py_split_nonempty (c : ascii) (s : string) : py_split c s <> [].
Proof.
  destruct s as [|x s]; simpl; [discriminate|].
  destruct (Ascii.eqb c x); [discriminate|]. destruct (py_split c s); discriminate.
Qed.

Lemma format_plain_negate (x : float) (cfg : locale_cfg) (d : Z) (grouping : bool) :
  SFltb (S754_zero false) x = true ->
  format_plain (SFopp x) cfg d grouping
  = result_map (String.append "-") (format_plain x cfg d grouping).
Proof.
  intros Hx. rewrite (format_plain_sign (SFopp x)), (format_plain_sign x).
  destruct x as [s|s| |s m e]; try discriminate; destruct s; try discriminate;
    cbn [SFopp py_abs SFabs py_lt_zero SFltb SFcompare negb];
    destruct (format_plain _ cfg d grouping); reflexivity.
Qed.

Lemma format_currency_negate (x : float) (cfg : locale_cfg) (d : Z) :
  SFltb (S754_zero false) x = true ->
  format_currency (SFopp x) cfg d = result_map (String.append "-") (format_currency x cfg d).
Proof.
  intros Hx. unfold format_currency. rewrite format_plain_negate by exact Hx.
  destruct (format_plain x cfg d true) as [b|e] eqn:Hb; cbn [result_map bind]; [|reflexivity].
  assert (Hu : py_startswith "-" b = false).
  { apply (format_plain_abs_unsigned x cfg d true).
    replace (py_abs x) with x; [exact Hb|].
    destruct x as [s|s| |s m e']; try discriminate; destruct s; try discriminate; reflexivity. }
  rewrite Hu. reflexivity.
Qed.

Lemma py_format_sci_negate (x : float) :
  SFltb (S754_zero false) x = true ->
  py_format_sci 3 (SFopp x) = result_map (String.append "-") (py_format_sci 3 x).
Proof.
  intros Hx. unfold py_format_sci. rewrite check_precision_ok by lia. cbn [bind result_map].
  destruct x as [s|s| |s m e]; try discriminate; destruct s; try discriminate; [reflexivity|].
  cbn [SFopp]. destruct (frac_of m e) as [n q]. destruct (sci_parts 3 n q). reflexivity.
Qed.

Lemma format_scientific_negate (x : float) (cfg : locale_cfg) :
  SFltb (S754_zero false) x = true ->
  format_scientific (SFopp x) cfg 3 = result_map (String.append "-") (format_scientific x cfg 3).
Proof.
  intros Hx. unfold format_scientific. rewrite py_format_sci_negate by exact Hx.
  destruct (py_format_sci 3 x) as [r|e]; cbn [result_map bind]; [|reflexivity].
  destruct (negb (String.eqb (decimal_sep cfg) ".")); [|reflexivity].
  change ("-" ++ r) with (String "-" r). cbn [py_split].
  replace (Ascii.eqb "e" "-") with false by reflexivity.
  pose proof (py_split_nonempty "e" r) as Hne.
  destruct (py_split "e" r) as [|m [|e' [|z l]]]; [congruence | reflexivity | | reflexivity].
  cbn [py_replace_first]. replace (Ascii.eqb "." "-") with false by reflexivity.
  reflexivity.
Qed.

(** ** Separator maps between the locale profiles *)

(** Exchange of ['.'] and [',']. *)
Definition swap_sep (c : ascii) : ascii :=
  if Ascii.eqb c "." then "," else if Ascii.eqb c "," then "." else c.

Lemma swap_sep_digits (s : string) : all_digits s = true -> string_map swap_sep s = s.
Proof.
  induction s as [|c s IH]; simpl; [reflexivity|].
  intros H. apply andb_true_iff in H as [Hc Hs]. rewrite IH by exact Hs.
  unfold swap_sep.
  destruct (Ascii.eqb_spec c ".") as [->|_]; [discriminate|].
  destruct (Ascii.eqb_spec c ",") as [->|_]; [discriminate | reflexivity].
Qed.

Lemma format_plain_eu_us (v : float) (d : Z) (grouping : bool) :
  format_plain v EU_cfg d grouping
  = result_map (string_map swap_sep) (format_plain v US_cfg d grouping).
Proof.
  destruct (format_plain_prec_cases v US_cfg d grouping) as [Hd|[e He]];
    [|now rewrite !He].
  destruct (is_finite v) eqn:Hv.
  - rewrite !format_plain_finite by assumption. cbn [result_map].
    set (R := scaled_round d v).
    assert (HR : 0 <= R) by (apply scaled_round_nonneg; lia).
    destruct (fixed_digits_shape d R ltac:(lia) HR) as (_ & Hip & Hfr & _).
    rewrite !string_map_app. f_equal.
    f_equal; [destruct (py_lt_zero v); reflexivity|]. f_equal.
    + destruct grouping; [|now rewrite swap_sep_digits].
      rewrite group_thousands_map, swap_sep_digits by exact Hip. reflexivity.
    + destruct (Z.ltb_spec 0 d); [|reflexivity].
      rewrite string_map_app, (swap_sep_digits (zpad d (Z_to_dec (R mod 10 ^ d))))
        by (apply Hfr; lia).
      reflexivity.
  - rewrite !format_plain_nonfinite by assumption. cbn [result_map].
    destruct (py_lt_zero v), v, (0 <? d); reflexivity.
Qed.

Lemma format_scientific_dot (x : float) (cfg : locale_cfg) :
  decimal_sep cfg = "." -> format_scientific x cfg 3 = py_format_sci 3 x.
Proof.
  intros Hs. unfold format_scientific. rewrite Hs. cbn [String.eqb negb].
  destruct (py_format_sci 3 x); reflexivity.
Qed.

Lemma format_scientific_eu_us (x : float) :
  is_finite x = true ->
  format_scientific x EU_cfg 3 = result_map (string_map swap_sep) (format_scientific x US_cfg 3).
Proof.
  intros Hx. rewrite (format_scientific_dot x US_cfg) by reflexivity.
  destruct (format_scientific_shape x EU_cfg Hx)
    as (sg & c & frac & es & ed & Hsg & Hc & Hfr & _ & Hes & Hed & _ & Hraw & HEU & _).
  rewrite Hraw, HEU by discriminate. cbn [result_map]. f_equal.
  rewrite !string_map_app, (swap_sep_digits frac Hfr), (swap_sep_digits ed Hed).
  rewrite (swap_sep_digits (str1 c)) by (cbn; now rewrite Hc).
  destruct Hsg as [->| ->], Hes as [->| ->]; reflexivity.
Qed.

Lemma dict_get_in {V} (d : list (string * V)) (k : string) :
  dict_get d k <> None <-> In k (map fst d).
Proof.
  induction d as [|[k' v] d IH]; simpl; [split; [congruence | tauto]|].
  destruct (String.eqb_spec k k') as [->|Hne].
  - split; [auto | discriminate].
  - rewrite IH. split; [auto|]. intros [->|H]; [congruence | exact H].
Qed.

(** The errors the renderers raise. *)
Lemma format_plain_error (v : float) (cfg : locale_cfg) (d : Z) (grouping : bool) (e : exn) :
  format_plain v cfg d grouping = Raise e -> check_precision d = Raise e.
Proof.
  intros H. destruct (check_precision d) as [[]|e'] eqn:Hc.
  - destruct (format_plain_total v cfg d grouping (check_precision_ok_inv d Hc)) as [s Hs].
    congruence.
  - rewrite (format_plain_prec_error v cfg d grouping e' Hc) in H. congruence.
Qed.

Lemma format_currency_error (v : float) (cfg : locale_cfg) (d : Z) (e : exn) :
  format_currency v cfg d = Raise e -> check_precision d = Raise e.
Proof.
  unfold format_currency. destruct (format_plain v cfg d true) as [b|e'] eqn:Hb; cbn [bind].
  - destruct (py_startswith "-" b); discriminate.
  - intros H. injection H as <-. exact (format_plain_error _ _ _ _ _ Hb).
Qed.

Lemma format_scientific_error (v : float) (cfg : locale_cfg) (e : exn) :
  format_scientific v cfg 3 = Raise e ->
  e = ValueError "not enough values to unpack (expected 2, got 1)" \/
  e = ValueError "too many values to unpack (expected 2)".
Proof.
  unfold format_scientific, py_format_sci. rewrite check_precision_ok by lia. cbn [bind].
  destruct (negb _); [|discriminate].
  destruct (py_split "e" _) as [|a [|b [|c l]]]; intros H; try discriminate H;
    injection H as <-; auto.
Qed.

Lemma check_precision_error (d : Z) (e : exn) :
  check_precision d = Raise e ->
  e = ValueError "Format specifier missing precision" \/
  e = ValueError "Too many decimal digits in format string" \/
  e = ValueError "precision too big".
Proof.
  unfold check_precision.
  destruct (d <? 0); [intros H; injection H as <-; auto|].
  destruct (9223372036854775807 <? d); [intros H; injection H as <-; auto|].
  destruct (2147483647 <? d); [intros H; injection H as <-; auto | discriminate].
Qed.

(** ** Extra properties of the dispatcher *)

(** Negating a positive value ([inf] included) only prepends ["-"] to the
    output of [format_number], in every locale and style; the errors are
    the same. *)
Theorem format_number_negate (x : float) (loc st : string) (dec : option Z) :
  SFltb (S754_zero false) x = true ->
  format_number (SFopp x) loc st dec = result_map (String.append "-") (format_number x loc st dec).
Proof.
  intros Hx. unfold format_number.
  destruct (dict_get LOCALE_CONFIG loc) as [cfg|]; [|reflexivity].
  destruct (String.eqb (py_lower st) "currency"); [now apply format_currency_negate|].
  destruct (_ || _)%bool; [now apply format_plain_negate|].
  destruct (_ || _)%bool; [now apply format_plain_negate|].
  destruct (_ || _)%bool; [now apply format_scientific_negate | reflexivity].
Qed.

Lemma format_number_negate_witness :
  format_number (S754_finite true 5429388417957888 (-42)) "EU" "currency" None
  = result_map (String.append "-")
      (format_number (S754_finite false 5429388417957888 (-42)) "EU" "currency" None).
Proof.
  exact (format_number_negate (S754_finite false 5429388417957888 (-42)) "EU" "currency" None
           eq_refl).
Defined.

(** With a thousands separator [c] that is no digit, does not occur in the
    decimal separator and is none of ["-"], ["i"], ["n"], ["f"], ["a"],
    deleting [c] from the grouped rendering gives the ungrouped one: the
    grouping adds separators and nothing else. *)
Theorem format_plain_ungroup (v : float) (cfg : locale_cfg) (d : Z) (c : ascii) :
  thousands_sep cfg = str1 c -> is_digit c = false ->
  contains_char c (decimal_sep cfg) = false -> contains_char c "-infa" = false ->
  result_map (remove_char c) (format_plain v cfg d true) = format_plain v cfg d false.
Proof.
  intros Ht Hc Hdec Hw.
  cbn [contains_char] in Hw. repeat rewrite orb_false_iff in Hw.
  destruct Hw as (Hm & Hi & Hn & Hf & Ha & _).
  assert (Hsign : forall b : bool,
             remove_char c (if b then "-" else "") = (if b then "-" else "")).
  { intros []; [|reflexivity]. apply remove_char_absent. cbn. now rewrite Hm. }
  destruct (format_plain_prec_cases v cfg d true) as [Hd|[e He]]; [|now rewrite !He].
  destruct (is_finite v) eqn:Hv.
  - rewrite !format_plain_finite by assumption. cbn [result_map]. f_equal.
    set (R := scaled_round d v).
    assert (HR : 0 <= R) by (apply scaled_round_nonneg; lia).
    destruct (fixed_digits_shape d R ltac:(lia) HR) as (_ & Hip & Hfr & _).
    rewrite !remove_char_app, Hsign, Ht, remove_sep_group_thousands
      by (now apply all_digits_no_char).
    f_equal. f_equal.
    destruct (Z.ltb_spec 0 d); [|reflexivity].
    rewrite remove_char_app, !remove_char_absent; [reflexivity | | exact Hdec].
    apply all_digits_no_char; [exact Hc | apply Hfr; lia].
  - rewrite !format_plain_nonfinite by assumption. cbn [result_map]. f_equal.
    rewrite !remove_char_app, Hsign. f_equal. f_equal.
    + destruct v; try discriminate; apply remove_char_absent; cbn; now rewrite ?Hi, ?Hn, ?Hf, ?Ha.
    + destruct (0 <? d); [now apply remove_char_absent | reflexivity].
Qed.

Lemma format_plain_ungroup_witness :
  result_map (remove_char ",") (format_plain (S754_finite false 5429686605511341 (-42)) US_cfg 2 true)
  = format_plain (S754_finite false 5429686605511341 (-42)) US_cfg 2 false.
Proof.
  exact (format_plain_ungroup (S754_finite false 5429686605511341 (-42)) US_cfg 2 ","
           eq_refl eq_refl eq_refl eq_refl).
Defined.

(** Outside the currency style the EU profile renders what the US profile
    renders with ['.'] and [','] exchanged (for the scientific style, on
    finite values; [inf] and [nan] fail there in the EU profile); the
    errors are the same. *)
Theorem format_number_eu_us (v : float) (st : string) (dec : option Z) :
  String.eqb (py_lower st) "currency" = false ->
  (sci_style (py_lower st) = true -> is_finite v = true) ->
  format_number v "EU" st dec = result_map (string_map swap_sep) (format_number v "US" st dec).
Proof.
  intros Hcur Hsci. unfold format_number.
  change (dict_get LOCALE_CONFIG "EU") with (Some EU_cfg).
  change (dict_get LOCALE_CONFIG "US") with (Some US_cfg).
  cbv beta iota zeta. rewrite Hcur.
  destruct (_ || _)%bool; [apply format_plain_eu_us|].
  destruct (_ || _)%bool; [apply format_plain_eu_us|].
  destruct (String.eqb (py_lower st) "sci" || String.eqb (py_lower st) "scientific")%bool eqn:Es;
    [apply format_scientific_eu_us, Hsci, Es | reflexivity].
Qed.

Lemma format_number_eu_us_witness :
  format_number (S754_finite false 5429686605511341 (-42)) "EU" "grouped" (Some 2)
  = result_map (string_map swap_sep)
      (format_number (S754_finite false 5429686605511341 (-42)) "US" "grouped" (Some 2)).
Proof.
  exact (format_number_eu_us (S754_finite false 5429686605511341 (-42)) "grouped" (Some 2)
           eq_refl ltac:(intros H; vm_compute in H; discriminate H)).
Defined.

(** The UK profile renders every style other than currency exactly as the
    US profile; in the currency style the only difference is the symbol:
    the first ["$"] becomes ["£"]. *)
Theorem format_number_uk_us (v : float) (st : string) (dec : option Z) :
  (String.eqb (py_lower st) "currency" = false ->
   format_number v "UK" st dec = format_number v "US" st dec) /\
  format_number v "UK" "currency" dec
  = result_map (py_replace_first "$" "£") (format_number v "US" "currency" dec).
Proof.
  split.
  - intros Hcur. unfold format_number.
    change (dict_get LOCALE_CONFIG "UK") with (Some UK_cfg).
    change (dict_get LOCALE_CONFIG "US") with (Some US_cfg).
    cbv beta iota zeta. rewrite Hcur. reflexivity.
  - unfold format_number.
    change (dict_get LOCALE_CONFIG "UK") with (Some UK_cfg).
    change (dict_get LOCALE_CONFIG "US") with (Some US_cfg).
    cbv beta iota zeta.
    replace (String.eqb (py_lower "currency") "currency") with true by reflexivity.
    unfold format_currency.
    change (format_plain v UK_cfg) with (format_plain v US_cfg).
    destruct (format_plain v US_cfg _ true) as [b|e]; cbn [bind result_map]; [|reflexivity].
    destruct (py_startswith "-" b); reflexivity.
Qed.

Lemma format_number_uk_us_witness :
  format_number (S754_finite false 5429388417957888 (-42)) "UK" "rounded" (Some 1)
  = format_number (S754_finite false 5429388417957888 (-42)) "US" "rounded" (Some 1).
Proof.
  exact (proj1 (format_number_uk_us (S754_finite false 5429388417957888 (-42)) "rounded" (Some 1))
           eq_refl).
Defined.

(** [/locales] lists exactly the locales [format_number] accepts: a locale
    is listed if and only if [format_number] never fails with "Unknown
    locale" for it. *)
Theorem list_locales_accepted (loc : string) :
  In loc list_locales <->
  forall v st dec, format_number v loc st dec <> Raise (ValueError ("Unknown locale: " ++ loc)).
Proof.
  unfold list_locales. rewrite <- dict_get_in. split.
  - intros Hl v st dec. unfold format_number.
    destruct (dict_get LOCALE_CONFIG loc) as [cfg|]; [|congruence].
    destruct (String.eqb (py_lower st) "currency").
    { intros H. apply format_currency_error, check_precision_error in H.
      destruct H as [H|[H|H]]; discriminate H. }
    destruct (_ || _)%bool.
    { intros H. apply format_plain_error, check_precision_error in H.
      destruct H as [H|[H|H]]; discriminate H. }
    destruct (_ || _)%bool.
    { intros H. apply format_plain_error, check_precision_error in H.
      destruct H as [H|[H|H]]; discriminate H. }
    destruct (_ || _)%bool.
    { intros H. apply format_scientific_error in H. destruct H as [H|H]; discriminate H. }
    discriminate.
  - intros H Hn. apply (H (S754_zero false) "currency" None).
    unfold format_number. now rewrite Hn.
Qed.

(** ** Extra properties of the endpoint *)

(** An unparseable [decimals] string is silently dropped by a GET request
    (which then uses the style's default) and rejected by a POST request
    with 400 "decimals must be an integer", before the value is looked at. *)
Theorem format_endpoint_bad_decimals (s : string) :
  py_int_of_string s = None ->
  (forall args, dict_get args "decimals" = None ->
   format_endpoint_get (("decimals", s) :: args) = format_endpoint_get args) /\
  (forall value loc st,
   format_endpoint_post value loc st (DecStr s) = ErrorResponse 400 "decimals must be an integer").
Proof.
  intros Hs. split.
  - intros args Ha. unfold format_endpoint_get. cbn [dict_get].
    replace (String.eqb "value" "decimals") with false by reflexivity.
    replace (String.eqb "locale" "decimals") with false by reflexivity.
    replace (String.eqb "style" "decimals") with false by reflexivity.
    replace (String.eqb "decimals" "decimals") with true by reflexivity.
    now rewrite Hs, Ha.
  - intros value loc st. unfold format_endpoint_post. now rewrite Hs.
Qed.

Lemma format_endpoint_bad_decimals_witness :
  format_endpoint_get [("decimals", "_1"); ("value", "5")] = format_endpoint_get [("value", "5")] /\
  format_endpoint_post PyNone None None (DecStr "_1")
  = ErrorResponse 400 "decimals must be an integer".
Proof.
  destruct (format_endpoint_bad_decimals "_1" ltac:(vm_compute; reflexivity)) as [H1 H2].
  split; [apply H1; reflexivity | apply H2].
Defined.

(** ** [int()] on the decimal form of an integer *)

Lemma digit_char_nat (x : Z) : 0 <= x < 10 -> nat_of_ascii (digit_char x) = (48 + Z.to_nat x)%nat.
Proof. intros Hx. unfold digit_char. apply nat_ascii_embedding. lia. Qed.

Lemma read_digits_digit (x : Z) (s : string) (a c : Z) :
  0 <= x < 10 ->
  read_digits (String (digit_char x) s) a c = read_digits s (10 * a + x) (c + 1).
Proof.
  intros Hx. cbn [read_digits]. rewrite digit_char_is_digit by exact Hx.
  rewrite digit_char_nat by exact Hx. f_equal. f_equal. lia.
Qed.

Lemma dec_digits_S (f : nat) (n : Z) (acc : string) :
  dec_digits (S f) n acc =
  if n <? 10 then String (digit_char (n mod 10)) acc
  else dec_digits f (n / 10) (String (digit_char (n mod 10)) acc).
Proof. reflexivity. Qed.

Lemma dec_digits_read (f : nat) (n : Z) (acc : string) (a c : Z) :
  0 <= n -> (n < 10 \/ n < 10 ^ Z.of_nat f) ->
  exists k, 0 <= k /\
    read_digits (dec_digits (S f) n acc) a c = read_digits acc (a * 10 ^ (k + 1) + n) (c + k + 1).
Proof.
  revert n acc a c; induction f as [|f IH]; intros n acc a c Hn Hb.
  - rewrite dec_digits_S. destruct (Z.ltb_spec n 10); [|simpl in Hb; lia].
    exists 0. split; [lia|].
    rewrite read_digits_digit by (apply Z.mod_pos_bound; lia).
    rewrite Z.mod_small by lia. f_equal; lia.
  - rewrite dec_digits_S. destruct (Z.ltb_spec n 10).
    + exists 0. split; [lia|].
      rewrite read_digits_digit by (apply Z.mod_pos_bound; lia).
      rewrite Z.mod_small by lia. f_equal; lia.
    + assert (Hb' : n / 10 < 10 \/ n / 10 < 10 ^ Z.of_nat f).
      { right. apply Z.div_lt_upper_bound; [lia|].
        destruct Hb as [|Hb]; [lia|]. rewrite Nat2Z.inj_succ, Z.pow_succ_r in Hb by lia. lia. }
      destruct (IH (n / 10) (String (digit_char (n mod 10)) acc) a c ltac:(apply Z.div_pos; lia) Hb')
        as (k & Hk & E).
      exists (k + 1). split; [lia|]. rewrite E.
      rewrite read_digits_digit by (apply Z.mod_pos_bound; lia).
      pose proof (Z.div_mod n 10 ltac:(lia)).
      replace (k + 1 + 1) with (Z.succ (k + 1)) by lia. rewrite Z.pow_succ_r by lia.
      f_equal; lia.
Qed.

Lemma Z_to_dec_read (n : Z) :
  0 <= n -> exists k, 0 <= k /\ read_digits (Z_to_dec n) 0 0 = (n, k + 1, "").
Proof.
  intros Hn. unfold Z_to_dec.
  assert (Hb : n < 10 \/ n < 10 ^ Z.of_nat (Z.to_nat (Z.log2 n))).
  { destruct (Z.ltb_spec n 10) as [|Hge]; [now left|right].
    rewrite Z2Nat.id by apply Z.log2_nonneg.
    set (L := Z.log2 n).
    assert (HL : 3 <= L).
    { subst L. replace 3 with (Z.log2 8) by reflexivity. apply Z.log2_le_mono. lia. }
    destruct (Z.log2_spec n ltac:(lia)) as [_ Hlt]. fold L in Hlt.
    rewrite Z.pow_succ_r in Hlt by lia.
    replace 10 with (2 * 5) by reflexivity. rewrite Z.pow_mul_l.
    assert (5 ^ 1 <= 5 ^ L) by (apply Z.pow_le_mono_r; lia).
    assert (0 < 2 ^ L) by (apply Z.pow_pos_nonneg; lia).
    simpl (5 ^ 1) in *. nia. }
  destruct (dec_digits_read (Z.to_nat (Z.log2 n)) n "" 0 0 Hn Hb) as (k & Hk & E).
  exists k. split; [exact Hk|]. rewrite E. cbn [read_digits].
  replace (0 * 10 ^ (k + 1) + n) with n by lia. now replace (0 + k + 1) with (k + 1) by lia.
Qed.

Lemma is_space_digit (c : ascii) : is_digit c = true -> is_space c = false.
Proof.
  unfold is_digit, is_space. intros H. apply andb_true_iff in H as [H1 H2].
  apply Nat.leb_le in H1. apply Nat.leb_le in H2.
  apply orb_false_iff. split; [apply Nat.eqb_neq; lia|].
  apply andb_false_iff. right. apply Nat.leb_gt. lia.
Qed.

Lemma lstrip_digit_app (u v : string) :
  all_digits u = true -> u <> "" -> lstrip (u ++ v) = u ++ v.
Proof.
  destruct u as [|c u]; [congruence|]. cbn [all_digits String.append lstrip].
  intros H _. apply andb_true_iff in H as [Hc _]. now rewrite is_space_digit.
Qed.

Lemma all_digits_str_rev (s : string) : all_digits s = true -> all_digits (str_rev s) = true.
Proof.
  induction s as [|c s IH]; simpl; [reflexivity|].
  intros H. apply andb_true_iff in H as [Hc Hs].
  rewrite all_digits_append, IH by exact Hs. simpl. now rewrite Hc.
Qed.

Lemma str_rev_nonempty (s : string) : s <> "" -> str_rev s <> "".
Proof.
  intros H E. apply (f_equal String.length) in E. rewrite length_str_rev in E.
  destruct s; [congruence | discriminate].
Qed.

Lemma strip_digits (D : string) :
  all_digits D = true -> D <> "" -> strip D = D /\ strip ("-" ++ D) = "-" ++ D.
Proof.
  intros Hd Hne. unfold strip. split.
  - rewrite <- (append_nil_r D) at 1. rewrite lstrip_digit_app by assumption.
    rewrite append_nil_r, <- (append_nil_r (str_rev D)), lstrip_digit_app
      by (apply all_digits_str_rev, Hd || apply str_rev_nonempty, Hne).
    now rewrite append_nil_r, str_rev_involutive.
  - change ("-" ++ D) with (String "-" D).
    replace (lstrip (String "-" D)) with (String "-" D) by reflexivity.
    cbn [str_rev]. rewrite lstrip_digit_app
      by (apply all_digits_str_rev, Hd || apply str_rev_nonempty, Hne).
    rewrite str_rev_append, str_rev_involutive. reflexivity.
Qed.

Lemma underscores_ok_none (prev : ascii) (t : string) :
  contains_char "_" t = false -> Ascii.eqb prev "_" = false -> underscores_ok prev t = true.
Proof.
  revert prev; induction t as [|c t IH]; intros prev Ht Hp; cbn [underscores_ok].
  - now rewrite Hp.
  - cbn [contains_char] in Ht. apply orb_false_iff in Ht as [Hc Ht].
    rewrite Ascii.eqb_sym in Hc. rewrite Hc, Hp, IH by assumption. reflexivity.
Qed.

Lemma remove_underscores_none (t : string) :
  contains_char "_" t = false -> remove_underscores t = t.
Proof.
  induction t as [|c t IH]; [reflexivity|]. cbn [contains_char remove_underscores].
  intros H. apply orb_false_iff in H as [Hc Ht]. rewrite Ascii.eqb_sym in Hc.
  now rewrite Hc, IH.
Qed.

Lemma split_sign_digit (c : ascii) (s : string) :
  is_digit c = true -> split_sign (String c s) = (false, String c s).
Proof. intros H. destruct c as [[] [] [] [] [] [] [] []]; (reflexivity || discriminate H). Qed.

Lemma read_digits_all (s : string) (a c : Z) :
  all_digits s = true ->
  exists v, 0 <= v < 10 ^ Z.of_nat (String.length s) /\
    read_digits s a c = (a * 10 ^ Z.of_nat (String.length s) + v,
                         c + Z.of_nat (String.length s), "").
Proof.
  revert a c; induction s as [|ch s IH]; intros a c H.
  - exists 0. cbn. split; [lia|]. rewrite Z.mul_1_r, !Z.add_0_r. reflexivity.
  - cbn [all_digits] in H. apply andb_true_iff in H as [Hch Hs].
    cbn [read_digits]. rewrite Hch.
    set (dv := Z.of_nat (nat_of_ascii ch - 48)).
    assert (Hdv : 0 <= dv <= 9).
    { unfold dv, is_digit in *. apply andb_true_iff in Hch as [H1 H2].
      apply Nat.leb_le in H1. apply Nat.leb_le in H2. lia. }
    destruct (IH (10 * a + dv) (c + 1) Hs) as (v & Hv & E).
    rewrite E. cbn [String.length]. rewrite Nat2Z.inj_succ.
    set (l := Z.of_nat (String.length s)) in *.
    assert (0 <= l) by lia.
    exists (dv * 10 ^ l + v). rewrite Z.pow_succ_r by lia. split; [nia|].
    f_equal. f_equal; ring.
Qed.

Lemma all_digits_ascii (s : string) : all_digits s = true -> is_ascii_str s = true.
Proof.
  induction s as [|c s IH]; [reflexivity|]. cbn [all_digits is_ascii_str].
  intros H. apply andb_true_iff in H as [Hc Hs]. rewrite IH by exact Hs.
  unfold is_digit in Hc. apply andb_true_iff in Hc as [_ Hc]. apply Nat.leb_le in Hc.
  unfold byte_Z. rewrite andb_true_r. apply Z.ltb_lt. lia.
Qed.

Lemma transform_ascii (s : string) : is_ascii_str s = true -> transform_decimal_and_space s = s.
Proof. intros H. unfold transform_decimal_and_space. now rewrite H. Qed.

Lemma Z_to_dec_count (n : Z) :
  0 <= n < 10 ^ int_max_str_digits ->
  exists k, 0 <= k /\ k + 1 <= int_max_str_digits /\ read_digits (Z_to_dec n) 0 0 = (n, k + 1, "").
Proof.
  intros Hn. destruct (Z_to_dec_read n ltac:(lia)) as (k & Hk & Hr).
  exists k. split; [exact Hk|]. split; [|exact Hr].
  destruct (read_digits_all (Z_to_dec n) 0 0 (Z_to_dec_all_digits n ltac:(lia))) as (v & _ & Hr').
  rewrite Hr in Hr'. injection Hr' as _ Hl.
  assert (Hle : (String.length (Z_to_dec n) <= Z.to_nat int_max_str_digits)%nat)
    by (apply Z_to_dec_length_le; [exact Hn | unfold int_max_str_digits; lia]).
  assert (0 <= int_max_str_digits) by (unfold int_max_str_digits; lia).
  lia.
Qed.

Lemma py_int_of_string_dec (n : Z) :
  0 <= n < 10 ^ int_max_str_digits ->
  py_int_of_string (Z_to_dec n) = Some n /\ py_int_of_string ("-" ++ Z_to_dec n) = Some (- n).
Proof.
  intros Hn.
  pose proof (Z_to_dec_all_digits n ltac:(lia)) as Hd. pose proof (Z_to_dec_nonempty n) as Hne.
  destruct (strip_digits _ Hd Hne) as [S1 S2].
  destruct (Z_to_dec_count n Hn) as (k & Hk & Hk' & Hr).
  assert (Hu : contains_char "_" (Z_to_dec n) = false) by (now apply all_digits_no_char).
  assert (Hs : split_sign (Z_to_dec n) = (false, Z_to_dec n)).
  { destruct (Z_to_dec n) as [|c D]; [congruence|]. apply split_sign_digit.
    cbn in Hd. now apply andb_true_iff in Hd. }
  assert (Hok : ((0 <? k + 1) && (k + 1 <=? int_max_str_digits) && String.eqb "" "")%bool = true).
  { apply andb_true_iff; split; [apply andb_true_iff; split|reflexivity].
    - apply Z.ltb_lt; lia.
    - apply Z.leb_le; exact Hk'. }
  pose proof (all_digits_ascii _ Hd) as Ha.
  unfold py_int_of_string. split.
  - rewrite transform_ascii by exact Ha.
    rewrite S1, underscores_ok_none, remove_underscores_none, Hs by (assumption || reflexivity).
    cbn [negb]. rewrite Hr, Hok. reflexivity.
  - rewrite transform_ascii by (change ("-" ++ Z_to_dec n) with (String "-" (Z_to_dec n));
                                cbn [is_ascii_str]; rewrite Ha; reflexivity).
    rewrite S2. change ("-" ++ Z_to_dec n) with (String "-" (Z_to_dec n)).
    assert (Hu' : contains_char "_" (String "-" (Z_to_dec n)) = false)
      by (cbn [contains_char]; rewrite Hu; reflexivity).
    rewrite (underscores_ok_none "000" _ Hu' eq_refl).
    cbn [negb remove_underscores]. replace (Ascii.eqb "-" "_") with false by reflexivity.
    rewrite remove_underscores_none by exact Hu. cbn [split_sign].
    rewrite Hr, Hok. reflexivity.
Qed.

Lemma py_str_of_int_some (z : Z) :
  Z.abs z < 10 ^ int_max_str_digits ->
  py_str_of_int z = Some (if z <? 0 then "-" ++ Z_to_dec (- z) else Z_to_dec z).
Proof.
  intros Hz. unfold py_str_of_int.
  destruct (Z.leb_spec (10 ^ int_max_str_digits) (Z.abs z)); [lia | reflexivity].
Qed.

Lemma py_int_of_string_str_aux (z : Z) (s : string) :
  py_str_of_int z = Some s -> py_int_of_string s = Some z.
Proof.
  unfold py_str_of_int. destruct (Z.leb_spec (10 ^ int_max_str_digits) (Z.abs z)) as [_|Hz];
    [discriminate|]. intros E. injection E as <-.
  destruct (Z.ltb_spec z 0).
  - replace z with (- - z) at 2 by lia.
    exact (proj2 (py_int_of_string_dec (- z) ltac:(lia))).
  - exact (proj1 (py_int_of_string_dec z ltac:(lia))).
Qed.

(** ** Surrounding whitespace in [int()] and [float()] *)

Fixpoint all_space (s : string) : bool :=
  match s with
  | EmptyString => true
  | String c s' => is_space c && all_space s'
  end.

Lemma all_space_app (a b : string) : all_space (a ++ b) = all_space a && all_space b.
Proof. induction a; simpl; [reflexivity|]. now rewrite IHa, andb_assoc. Qed.

Lemma all_space_str_rev (s : string) : all_space s = true -> all_space (str_rev s) = true.
Proof.
  induction s as [|c s IH]; simpl; [reflexivity|].
  intros H. apply andb_true_iff in H as [Hc Hs].
  rewrite all_space_app, IH by exact Hs. simpl. now rewrite Hc.
Qed.

Lemma lstrip_spaces (w x : string) : all_space w = true -> lstrip (w ++ x) = lstrip x.
Proof.
  induction w as [|c w IH]; simpl; [reflexivity|].
  intros H. apply andb_true_iff in H as [Hc Hw]. rewrite Hc. now apply IH.
Qed.

Lemma lstrip_app_ne (s w : string) : lstrip s <> "" -> lstrip (s ++ w) = lstrip s ++ w.
Proof.
  induction s as [|c s IH]; simpl; [congruence|].
  destruct (is_space c); [exact IH | reflexivity].
Qed.

Lemma lstrip_app_empty (s w : string) : lstrip s = "" -> lstrip (s ++ w) = lstrip w.
Proof.
  induction s as [|c s IH]; simpl; [reflexivity|].
  destruct (is_space c); [exact IH | discriminate].
Qed.

Lemma strip_pad (w1 s w2 : string) :
  all_space w1 = true -> all_space w2 = true -> strip (w1 ++ s ++ w2) = strip s.
Proof.
  intros H1 H2. unfold strip. rewrite lstrip_spaces by exact H1.
  destruct (lstrip s) as [|c t] eqn:E.
  - rewrite lstrip_app_empty by exact E.
    rewrite <- (append_nil_r w2), lstrip_spaces by exact H2. reflexivity.
  - rewrite lstrip_app_ne by (rewrite E; discriminate). rewrite E.
    rewrite str_rev_append, lstrip_spaces by (now apply all_space_str_rev). reflexivity.
Qed.

Lemma space_char (c : ascii) :
  is_space c = true ->
  0 <= byte_Z c < 127 /\ Z_byte (byte_Z c) = c /\ is_digit c = false /\ Ascii.eqb c "_" = false.
Proof.
  intros H. unfold byte_Z, Z_byte. rewrite Nat2Z.id, ascii_nat_embedding.
  destruct c as [[] [] [] [] [] [] [] []]; (discriminate H || (split; [simpl; lia | auto])).
Qed.

Lemma ascii_not_cont (c : ascii) : byte_Z c < 128 -> is_cont c = false.
Proof. intros H. unfold is_cont. apply andb_false_iff. left. apply Z.leb_gt. lia. Qed.

Lemma is_ascii_str_app (a b : string) : is_ascii_str (a ++ b) = is_ascii_str a && is_ascii_str b.
Proof. induction a as [|c a IH]; [reflexivity|]. cbn. now rewrite IH, andb_assoc. Qed.

Lemma all_space_ascii (w : string) : all_space w = true -> is_ascii_str w = true.
Proof.
  induction w as [|c w IH]; [reflexivity|]. cbn [all_space is_ascii_str].
  intros H. apply andb_true_iff in H as [Hc Hw]. destruct (space_char c Hc) as [Hb _].
  rewrite IH by exact Hw. apply andb_true_iff. split; [apply Z.ltb_lt; lia | reflexivity].
Qed.

Ltac decode_close IH :=
  cbn [app]; f_equal;
  match goal with
  | |- _ = (utf8_decode ?t ++ _)%list => exact (IH t ltac:(unfold ltof; cbn [String.length]; lia))
  end.

Ltac decode_edge IH Hd :=
  subst; cbv beta iota; rewrite Hd; cbv beta iota; decode_close IH.

(** The decoder never reads past the end of [s] into an ASCII suffix: an
    ASCII byte is no continuation byte. *)
Lemma utf8_decode_app_ascii (s w : string) :
  is_ascii_str w = true -> utf8_decode (s ++ w) = (utf8_decode s ++ utf8_decode w)%list.
Proof.
  intros Hw.
  destruct w as [|d w']; [now rewrite append_nil_r, app_nil_r|].
  assert (Hd : is_cont d = false).
  { cbn [is_ascii_str] in Hw. apply andb_true_iff in Hw as [Hw _].
    apply ascii_not_cont. now apply Z.ltb_lt. }
  remember (String d w') as w eqn:Ew. clear Hw.
  induction s as [s IH] using (induction_ltof1 _ String.length).
  destruct s as [|c0 s1]; [reflexivity|].
  cbn [String.append utf8_decode].
  destruct (byte_Z c0 <? 128); [decode_close IH|].
  destruct ((192 <=? byte_Z c0) && (byte_Z c0 <? 224)).
  { destruct s1 as [|c1 s2]; cbn [String.append]; [decode_edge IH Hd|].
    destruct (is_cont c1); decode_close IH. }
  destruct ((224 <=? byte_Z c0) && (byte_Z c0 <? 240)).
  { destruct s1 as [|c1 s2]; cbn [String.append]; [decode_edge IH Hd|].
    destruct (is_cont c1); [|decode_close IH].
    destruct s2 as [|c2 s3]; cbn [String.append]; [decode_edge IH Hd|].
    destruct (is_cont c2); decode_close IH. }
  destruct ((240 <=? byte_Z c0) && (byte_Z c0 <? 248)).
  { destruct s1 as [|c1 s2]; cbn [String.append]; [decode_edge IH Hd|].
    destruct (is_cont c1); [|decode_close IH].
    destruct s2 as [|c2 s3]; cbn [String.append]; [decode_edge IH Hd|].
    destruct (is_cont c2); [|decode_close IH].
    destruct s3 as [|c3 s4]; cbn [String.append]; [decode_edge IH Hd|].
    destruct (is_cont c3); decode_close IH. }
  decode_close IH.
Qed.

Lemma utf8_decode_ascii_prefix (w x : string) :
  is_ascii_str w = true -> utf8_decode (w ++ x) = (utf8_decode w ++ utf8_decode x)%list.
Proof.
  induction w as [|c w IH]; [reflexivity|]. cbn [is_ascii_str String.append utf8_decode].
  intros H. apply andb_true_iff in H as [Hc Hw]. rewrite Hc. cbn [app]. now rewrite IH.
Qed.

Lemma transform_cps_spaces (w : string) (l : list Z) :
  all_space w = true -> transform_cps (utf8_decode w ++ l)%list = w ++ transform_cps l.
Proof.
  induction w as [|c w IH]; [reflexivity|]. cbn [all_space].
  intros H. apply andb_true_iff in H as [Hc Hw].
  destruct (space_char c Hc) as (Hb & Hz & _).
  cbn [utf8_decode]. replace (byte_Z c <? 128) with true by (symmetry; apply Z.ltb_lt; lia).
  cbn [app transform_cps].
  replace ((0 <=? byte_Z c) && (byte_Z c <? 127)) with true
    by (symmetry; apply andb_true_iff; split; [apply Z.leb_le | apply Z.ltb_lt]; lia).
  rewrite Hz, IH by exact Hw. reflexivity.
Qed.

Lemma transform_cps_spaces_suffix (l : list Z) (w : string) :
  all_space w = true ->
  exists x, all_space x = true /\ transform_cps (l ++ utf8_decode w)%list = transform_cps l ++ x.
Proof.
  intros Hw. induction l as [|c l IH].
  - exists w. split; [exact Hw|]. cbn [app].
    rewrite <- (app_nil_r (utf8_decode w)), transform_cps_spaces by exact Hw.
    apply append_nil_r.
  - destruct IH as (x & Hx & E). cbn [app transform_cps].
    destruct ((0 <=? c) && (c <? 127)); [exists x; now rewrite E|].
    destruct (py_unicode_isspace c); [exists x; now rewrite E|].
    destruct (py_unicode_todecimal c); [exists x; now rewrite E|].
    exists "". split; reflexivity.
Qed.

(** Surrounding ASCII whitespace passes through the decimal-and-space
    transform; a truncation inside [s] drops the trailing part. *)
Lemma transform_pad (w1 s w2 : string) :
  all_space w1 = true -> all_space w2 = true ->
  exists x, all_space x = true /\
  transform_decimal_and_space (w1 ++ s ++ w2) = w1 ++ transform_decimal_and_space s ++ x.
Proof.
  intros H1 H2. pose proof (all_space_ascii _ H1) as A1. pose proof (all_space_ascii _ H2) as A2.
  unfold transform_decimal_and_space.
  rewrite !is_ascii_str_app, A1, A2, andb_true_r. cbn [andb].
  destruct (is_ascii_str s); [exists w2; split; [exact H2 | reflexivity]|].
  rewrite utf8_decode_ascii_prefix, utf8_decode_app_ascii by assumption.
  rewrite transform_cps_spaces by exact H1.
  destruct (transform_cps_spaces_suffix (utf8_decode s) w2 H2) as (x & Hx & E).
  exists x. split; [exact Hx|]. now rewrite E.
Qed.

Lemma underscores_ok_prev (p q : ascii) (x : string) :
  is_digit p = is_digit q -> Ascii.eqb p "_" = Ascii.eqb q "_" ->
  underscores_ok p x = underscores_ok q x.
Proof. intros Hd Hu. destruct x; cbn [underscores_ok]; now rewrite ?Hd, ?Hu. Qed.

Lemma underscores_ok_spaces_prefix (w x : string) :
  all_space w = true -> underscores_ok "000" (w ++ x) = underscores_ok "000" x.
Proof.
  induction w as [|c w IH]; [reflexivity|]. cbn [all_space String.append underscores_ok].
  intros H. apply andb_true_iff in H as [Hc Hw].
  destruct (space_char c Hc) as (_ & _ & Hdig & Hus).
  rewrite Hus. cbn [andb]. rewrite <- IH by exact Hw.
  apply underscores_ok_prev; [exact Hdig | exact Hus].
Qed.

Lemma underscores_ok_spaces (p : ascii) (w : string) :
  all_space w = true -> underscores_ok p w = negb (Ascii.eqb p "_").
Proof.
  revert p. induction w as [|c w IH]; intros p; [reflexivity|]. cbn [all_space underscores_ok].
  intros H. apply andb_true_iff in H as [Hc Hw].
  destruct (space_char c Hc) as (_ & _ & Hdig & Hus).
  rewrite Hus, Hdig, IH, Hus by exact Hw. now destruct (Ascii.eqb p "_").
Qed.

Lemma underscores_ok_spaces_suffix (p : ascii) (x w : string) :
  all_space w = true -> underscores_ok p (x ++ w) = underscores_ok p x.
Proof.
  revert p. induction x as [|c x IH]; intros p Hw; cbn [String.append underscores_ok].
  - now apply underscores_ok_spaces.
  - now rewrite IH.
Qed.

Lemma remove_underscores_app (a b : string) :
  remove_underscores (a ++ b) = remove_underscores a ++ remove_underscores b.
Proof.
  induction a as [|c a IH]; [reflexivity|]. cbn [String.append remove_underscores].
  now destruct (Ascii.eqb c "_"); rewrite IH.
Qed.

Lemma remove_underscores_spaces (w : string) : all_space w = true -> remove_underscores w = w.
Proof.
  induction w as [|c w IH]; [reflexivity|]. cbn [all_space remove_underscores].
  intros H. apply andb_true_iff in H as [Hc Hw].
  destruct (space_char c Hc) as (_ & _ & _ & Hus). now rewrite Hus, IH.
Qed.

(** ** The currency layout of a non-negative amount *)

Lemma format_plain_nonneg_unsigned (v : float) (cfg : locale_cfg) (d : Z) (grouping : bool)
    (b : string) :
  py_lt_zero v = false -> format_plain v cfg d grouping = Ok b -> py_startswith "-" b = false.
Proof.
  intros Hv Hb. rewrite format_plain_sign, Hv in Hb.
  destruct (format_plain (py_abs v) cfg d grouping) as [r|e] eqn:Hr; [|discriminate].
  injection Hb as <-. exact (format_plain_abs_unsigned v cfg d grouping r Hr).
Qed.

Lemma round_div_even_exact (k q : Z) : 0 < q -> round_div_even (k * q) q = k.
Proof.
  intros Hq. unfold round_div_even.
  destruct (Z.div_eucl (k * q) q) as [qt r] eqn:E.
  assert (Hqt : qt = k * q / q) by (unfold Z.div; now rewrite E).
  assert (Hr : r = (k * q) mod q) by (unfold Z.modulo; now rewrite E).
  rewrite Z.div_mul in Hqt by lia. rewrite Z.mod_mul in Hr by lia. subst.
  destruct q; try lia. reflexivity.
Qed.

(** ** Extra properties of [int()], [float()] and the endpoint *)

(** [str(z)] succeeds exactly for the integers of at most 4300 digits,
    and [int()] reads each such decimal form back to [z]. *)
Theorem py_int_of_string_str (z : Z) (s : string) :
  (py_str_of_int z <> None <-> Z.abs z < 10 ^ int_max_str_digits) /\
  (py_str_of_int z = Some s -> py_int_of_string s = Some z).
Proof.
  split; [|exact (py_int_of_string_str_aux z s)].
  unfold py_str_of_int. destruct (Z.leb_spec (10 ^ int_max_str_digits) (Z.abs z)).
  - split; [congruence | lia].
  - split; [lia | discriminate].
Qed.

Lemma py_int_of_string_str_witness :
  py_str_of_int (-1234) = Some "-1234" /\ py_int_of_string "-1234" = Some (-1234).
Proof.
  assert (E : py_str_of_int (-1234) = Some "-1234") by (vm_compute; reflexivity).
  split; [exact E | exact (proj2 (py_int_of_string_str (-1234) "-1234") E)].
Defined.

Lemma py_int_of_string_pad (w1 s w2 : string) :
  all_space w1 = true -> all_space w2 = true ->
  py_int_of_string (w1 ++ s ++ w2) = py_int_of_string s.
Proof.
  intros H1 H2. destruct (transform_pad w1 s w2 H1 H2) as (x & Hx & E).
  unfold py_int_of_string. now rewrite E, strip_pad.
Qed.

Lemma py_float_of_string_pad (w1 s w2 : string) (f : float) :
  all_space w1 = true -> all_space w2 = true ->
  py_float_of_string (w1 ++ s ++ w2) = Ok f <-> py_float_of_string s = Ok f.
Proof.
  intros H1 H2. destruct (transform_pad w1 s w2 H1 H2) as (x & Hx & E).
  unfold py_float_of_string. cbv zeta. rewrite E.
  rewrite underscores_ok_spaces_prefix, underscores_ok_spaces_suffix by assumption.
  rewrite !remove_underscores_app, (remove_underscores_spaces w1), (remove_underscores_spaces x)
    by assumption.
  rewrite strip_pad by assumption.
  destruct (negb _); [split; discriminate|].
  destruct (split_sign _) as [neg body].
  destruct (_ || _)%bool; [reflexivity|].
  destruct (String.eqb _ "nan"); [reflexivity|].
  destruct (parse_decimal neg body); [reflexivity | split; discriminate].
Qed.

(** [int()] and [float()] ignore leading and trailing ASCII whitespace:
    [int()] gives the same result with and without it, and [float()]
    accepts the padded string exactly when it accepts the bare one, with
    the same value (only the message of its error quotes the string). *)
Theorem py_parse_whitespace (w1 s w2 : string) :
  all_space w1 = true -> all_space w2 = true ->
  py_int_of_string (w1 ++ s ++ w2) = py_int_of_string s /\
  (forall f, py_float_of_string (w1 ++ s ++ w2) = Ok f <-> py_float_of_string s = Ok f).
Proof.
  intros H1 H2. split; [now apply py_int_of_string_pad|].
  intros f. now apply py_float_of_string_pad.
Qed.

Lemma py_parse_whitespace_witness :
  py_int_of_string (" " ++ "٤٢" ++ "  ") = Some 42 /\
  py_float_of_string (" " ++ "2.5" ++ "  ") = Ok (S754_finite false 5629499534213120 (-51)).
Proof.
  split.
  - rewrite (proj1 (py_parse_whitespace " " "٤٢" "  " eq_refl eq_refl)).
    vm_compute. reflexivity.
  - apply (proj2 (py_parse_whitespace " " "2.5" "  " eq_refl eq_refl)).
    vm_compute. reflexivity.
Defined.

(** ** The spellings of [inf] and [nan] accepted by [float()] *)










(** ** C9: the value check at the request boundary *)




(** GET and POST agree: a query carrying the decimal form of an integer
    [decimals] gets the response of a JSON body carrying that integer or
    its decimal string, and a query without [decimals] that of a body
    without it. *)
Theorem format_endpoint_get_post (sv l st zs : string) (z : Z) :
  py_str_of_int z = Some zs ->
  format_endpoint_get [("value", sv); ("locale", l); ("style", st); ("decimals", zs)]
  = format_endpoint_post (PyStr sv) (Some l) (Some st) (DecInt z) /\
  format_endpoint_post (PyStr sv) (Some l) (Some st) (DecStr zs)
  = format_endpoint_post (PyStr sv) (Some l) (Some st) (DecInt z) /\
  format_endpoint_get [("value", sv)] = format_endpoint_post (PyStr sv) None None DecNone.
Proof.
  intros Hz. pose proof (py_int_of_string_str_aux z zs Hz) as Hi. split; [|split].
  - unfold format_endpoint_get, format_endpoint_post. simpl dict_get. cbv iota.
    now rewrite Hi.
  - unfold format_endpoint_post. now rewrite Hi.
  - reflexivity.
Qed.

Lemma format_endpoint_get_post_witness :
  py_str_of_int 3 = Some "3" /\
  format_endpoint_get [("value", "1234.5"); ("locale", "EU"); ("style", "plain"); ("decimals", "3")]
  = format_endpoint_post (PyStr "1234.5") (Some "EU") (Some "plain") (DecInt 3).
Proof.
  assert (E : py_str_of_int 3 = Some "3") by (vm_compute; reflexivity).
  split; [exact E | exact (proj1 (format_endpoint_get_post "1234.5" "EU" "plain" "3" 3 E))].
Defined.

(** ** Extra properties of the renderers *)

(** A finite value whose magnitude is an integer [N] ([0.0] and [-0.0]
    included) is rendered exactly: a ["-"] when the value is below zero
    (so none for [-0.0]), the digits of [N] (grouped when asked) and, when
    [decimals > 0], the decimal separator and [decimals] zeros. *)
Theorem format_plain_integral (v : float) (N : Z) (cfg : locale_cfg) (d : Z) (grouping : bool) :
  match v with
  | S754_zero _ => N = 0
  | S754_finite _ m e => fst (frac_of m e) = N * snd (frac_of m e)
  | _ => False
  end ->
  0 <= d <= 2147483647 ->
  format_plain v cfg d grouping =
    Ok ((if py_lt_zero v then "-" else "") ++
        ((if grouping then group_thousands (Z_to_dec N) (thousands_sep cfg) else Z_to_dec N) ++
         (if 0 <? d then decimal_sep cfg ++ repeat_char (Z.to_nat d) "0" else ""))).
Proof.
  intros HN Hd.
  assert (Hfin : is_finite v = true) by (destruct v; easy).
  rewrite format_plain_finite by (exact Hfin || exact Hd).
  assert (HR : scaled_round d v = N * 10 ^ d).
  { destruct v as [b| | |b m e]; try contradiction; cbn [scaled_round].
    - now subst N.
    - pose proof (frac_of_pos m e) as [_ Hq].
      destruct (frac_of m e) as [n q]. cbn [fst snd] in HN, Hq. subst n.
      replace (N * q * 10 ^ d) with ((N * 10 ^ d) * q) by ring.
      now apply round_div_even_exact. }
  assert (Hp : 10 ^ d <> 0) by (apply Z.pow_nonzero; lia).
  cbv zeta. rewrite HR, Z.div_mul, Z.mod_mul by exact Hp.
  destruct (Z.ltb_spec 0 d); [|reflexivity].
  rewrite zpad_zero by lia. reflexivity.
Qed.

Lemma format_plain_integral_witness :
  format_plain (S754_zero true) US_cfg 2 true
  = Ok ("" ++ (group_thousands (Z_to_dec 0) "," ++ ("." ++ repeat_char 2 "0"))) /\
  format_plain (S754_finite true 5427189394702336 (-42)) EU_cfg 0 true
  = Ok ("-" ++ (group_thousands (Z_to_dec 1234) "." ++ "")).
Proof.
  split.
  - exact (format_plain_integral (S754_zero true) 0 US_cfg 2 true eq_refl ltac:(lia)).
  - exact (format_plain_integral (S754_finite true 5427189394702336 (-42)) 1234 EU_cfg 0 true
             ltac:(vm_compute; reflexivity) ltac:(lia)).
Defined.

(** For a value that is not below zero ([-0.0] and [nan] included) the
    currency renderer emits no sign: the plain rendering never starts with
    ["-"], and the symbol goes before or after it, one space apart exactly
    when the profile says so. *)
Theorem format_currency_nonneg (v : float) (cfg : locale_cfg) (d : Z) :
  py_lt_zero v = false ->
  (forall b, format_plain v cfg d true = Ok b -> py_startswith "-" b = false) /\
  format_currency v cfg d =
    result_map
      (fun b =>
         let space := if currency_symbol_space cfg then " " else "" in
         if String.eqb (currency_symbol_position cfg) "before"
         then currency_symbol cfg ++ space ++ b
         else b ++ space ++ currency_symbol cfg)
      (format_plain v cfg d true).
Proof.
  intros Hv. split; [intros b; now apply format_plain_nonneg_unsigned|].
  unfold format_currency.
  destruct (format_plain v cfg d true) as [b|e] eqn:Hb; cbn [bind result_map]; [|reflexivity].
  rewrite (format_plain_nonneg_unsigned v cfg d true b Hv Hb). reflexivity.
Qed.

Lemma format_currency_nonneg_witness :
  format_currency (S754_zero true) EU_cfg 2
  = result_map (fun b => b ++ " " ++ "€") (format_plain (S754_zero true) EU_cfg 2 true).
Proof.
  exact (proj2 (format_currency_nonneg (S754_zero true) EU_cfg 2 eq_refl)).
Defined.

(** ** The exponent and mantissa of the ['e'] presentation *)

(** [n / q >= 10^E], as [floor_log10] tests it. *)
Definition pow10_ge (E n q : Z) : bool :=
  if 0 <=? E then q * 10 ^ E <=? n else q <=? n * 10 ^ (- E).

Lemma floor_log10_eq (n q : Z) :
  floor_log10 n q =
  let t := zlog10 n - zlog10 q in if pow10_ge t n q then t else t - 1.
Proof. reflexivity. Qed.

Lemma pow10_ge_scale (x n q K : Z) :
  0 <= K -> 0 <= x + K ->
  pow10_ge x n q = true <-> q * 10 ^ (x + K) <= n * 10 ^ K.
Proof.
  intros HK HxK. unfold pow10_ge.
  destruct (Z.leb_spec 0 x) as [Hx|Hx].
  - rewrite Z.leb_le, Z.pow_add_r by lia.
    assert (0 < 10 ^ K) by (apply Z.pow_pos_nonneg; lia).
    rewrite Z.mul_assoc. apply Z.mul_le_mono_pos_r. assumption.
  - rewrite Z.leb_le.
    replace (10 ^ K) with (10 ^ (- x) * 10 ^ (x + K))
      by (rewrite <- Z.pow_add_r by lia; f_equal; lia).
    assert (0 < 10 ^ (x + K)) by (apply Z.pow_pos_nonneg; lia).
    rewrite Z.mul_assoc. apply Z.mul_le_mono_pos_r. assumption.
Qed.

Lemma log10_aux_spec (f : nat) (n : Z) :
  0 < n -> n < 10 ^ Z.of_nat f ->
  0 <= log10_aux f n /\ 10 ^ log10_aux f n <= n < 10 ^ (log10_aux f n + 1).
Proof.
  revert n; induction f as [|f IH]; intros n Hn Hb; [simpl in Hb; lia|].
  cbn [log10_aux]. destruct (Z.ltb_spec n 10); [simpl; lia|].
  assert (Hb' : n / 10 < 10 ^ Z.of_nat f).
  { apply Z.div_lt_upper_bound; [lia|].
    rewrite Nat2Z.inj_succ, Z.pow_succ_r in Hb by lia. lia. }
  destruct (IH (n / 10) ltac:(apply Z.div_str_pos; lia) Hb') as (H0 & H1 & H2).
  set (L := log10_aux f (n / 10)) in *.
  pose proof (Z.div_mod n 10 ltac:(lia)). pose proof (Z.mod_pos_bound n 10 ltac:(lia)).
  split; [lia|].
  replace (1 + L + 1) with (Z.succ (L + 1)) by lia. rewrite Z.pow_succ_r by lia.
  replace (1 + L) with (Z.succ L) by lia. rewrite Z.pow_succ_r by lia.
  lia.
Qed.

Lemma zlog10_spec (n : Z) :
  0 < n -> 0 <= zlog10 n /\ 10 ^ zlog10 n <= n < 10 ^ (zlog10 n + 1).
Proof.
  intros Hn. unfold zlog10. apply log10_aux_spec; [exact Hn|].
  rewrite Nat2Z.inj_succ, Z2Nat.id by apply Z.log2_nonneg.
  destruct (Z.log2_spec n Hn) as [_ H].
  eapply Z.lt_le_trans; [exact H|].
  apply Z.pow_le_mono_l. split; [lia | lia].
Qed.

Lemma floor_log10_spec (n q : Z) :
  0 < n -> 0 < q ->
  pow10_ge (floor_log10 n q) n q = true /\ pow10_ge (floor_log10 n q + 1) n q = false.
Proof.
  intros Hn Hq.
  destruct (zlog10_spec n Hn) as (Ha0 & Ha1 & Ha2).
  destruct (zlog10_spec q Hq) as (Hb0 & Hb1 & Hb2).
  rewrite floor_log10_eq. cbv zeta.
  set (a := zlog10 n) in *. set (b := zlog10 q) in *. set (t := a - b).
  set (K := a + b + 2).
  assert (HK : 0 < 10 ^ K) by (apply Z.pow_pos_nonneg; lia).
  assert (Hup : pow10_ge (t + 1) n q = false).
  { destruct (pow10_ge (t + 1) n q) eqn:G; [|reflexivity]. exfalso.
    apply (pow10_ge_scale (t + 1) n q K) in G; [|lia|lia].
    assert (E1 : 10 ^ b * 10 ^ (t + 1 + K) = 10 ^ (a + 1) * 10 ^ K)
      by (rewrite <- !Z.pow_add_r by lia; f_equal; lia).
    assert (0 <= 10 ^ (t + 1 + K)) by (apply Z.pow_nonneg; lia).
    assert (10 ^ b * 10 ^ (t + 1 + K) <= q * 10 ^ (t + 1 + K)) by nia.
    nia. }
  assert (Hlow : pow10_ge (t - 1) n q = true).
  { apply (pow10_ge_scale (t - 1) n q K); [lia|lia|].
    assert (E1 : 10 ^ (b + 1) * 10 ^ (t - 1 + K) = 10 ^ a * 10 ^ K)
      by (rewrite <- !Z.pow_add_r by lia; f_equal; lia).
    assert (0 < 10 ^ (t - 1 + K)) by (apply Z.pow_pos_nonneg; lia).
    assert (q * 10 ^ (t - 1 + K) <= 10 ^ (b + 1) * 10 ^ (t - 1 + K)) by nia.
    nia. }
  destruct (pow10_ge t n q) eqn:G.
  - split; [exact G | exact Hup].
  - split; [exact Hlow|]. now replace (t - 1 + 1) with t by lia.
Qed.

Lemma round_div_even_bounds (X Y L U : Z) :
  0 < Y -> L * Y <= X -> X < U * Y -> L <= round_div_even X Y <= U.
Proof.
  intros HY HL HU. destruct (round_div_even_spec X Y HY) as [Hb _].
  set (R := round_div_even X Y) in *.
  apply Z.abs_le in Hb. split.
  - destruct (Z.le_gt_cases L R) as [|Hlt]; [assumption|exfalso].
    assert (R * Y <= (L - 1) * Y) by (apply Z.mul_le_mono_nonneg_r; lia). lia.
  - destruct (Z.le_gt_cases R U) as [|Hlt]; [assumption|exfalso].
    assert ((U + 1) * Y <= R * Y) by (apply Z.mul_le_mono_nonneg_r; lia). lia.
Qed.

(** [M * 10^(E-3)] lies within half a unit of its last digit of [n / q];
    both sides are scaled by [2 * q * 10^K] with [K = max 0 (3 - E)]. *)
Definition sci_close (M E n q : Z) : Prop :=
  let K := Z.max 0 (3 - E) in
  Z.abs (2 * (M * 10 ^ (E - 3 + K) * q - n * 10 ^ K)) <= 10 ^ (E - 3 + K) * q.

Lemma sci_parts_spec (n q : Z) :
  0 < n -> 0 < q ->
  1000 <= fst (sci_parts 3 n q) < 10000 /\
  sci_close (fst (sci_parts 3 n q)) (snd (sci_parts 3 n q)) n q.
Proof.
  intros Hn Hq. unfold sci_parts.
  destruct (floor_log10_spec n q Hn Hq) as [G1 G2].
  set (E0 := floor_log10 n q) in *.
  assert (H0 : 1000 <= (if 0 <=? 3 - E0 then round_div_even (n * 10 ^ (3 - E0)) q
                        else round_div_even n (q * 10 ^ (E0 - 3))) <= 10000 /\
               sci_close (if 0 <=? 3 - E0 then round_div_even (n * 10 ^ (3 - E0)) q
                          else round_div_even n (q * 10 ^ (E0 - 3))) E0 n q).
  { unfold sci_close. destruct (Z.leb_spec 0 (3 - E0)).
    - rewrite Z.max_r by lia. replace (E0 - 3 + (3 - E0)) with 0 by lia.
      apply (pow10_ge_scale E0 n q (3 - E0)) in G1; [|lia|lia].
      assert (G2' : ~ (q * 10 ^ (E0 + 1 + (3 - E0)) <= n * 10 ^ (3 - E0))).
      { intros C. apply (pow10_ge_scale (E0 + 1) n q (3 - E0)) in C; [congruence|lia|lia]. }
      replace (E0 + (3 - E0)) with 3 in G1 by lia.
      replace (E0 + 1 + (3 - E0)) with 4 in G2' by lia.
      change (10 ^ 3) with 1000 in G1. change (10 ^ 4) with 10000 in G2'.
      split.
      + apply round_div_even_bounds; lia.
      + destruct (round_div_even_spec (n * 10 ^ (3 - E0)) q Hq) as [Hb _].
        change (10 ^ 0) with 1. rewrite Z.mul_1_r, Z.mul_1_l. exact Hb.
    - rewrite Z.max_l by lia. rewrite Z.add_0_r, Z.pow_0_r, Z.mul_1_r.
      apply (pow10_ge_scale E0 n q 0) in G1; [|lia|lia].
      assert (G2' : ~ (q * 10 ^ (E0 + 1 + 0) <= n * 10 ^ 0)).
      { intros C. apply (pow10_ge_scale (E0 + 1) n q 0) in C; [congruence|lia|lia]. }
      rewrite Z.add_0_r, Z.pow_0_r, Z.mul_1_r in G1, G2'.
      assert (E3 : 10 ^ E0 = 1000 * 10 ^ (E0 - 3))
        by (change 1000 with (10 ^ 3); rewrite <- Z.pow_add_r by lia; f_equal; lia).
      assert (E4 : 10 ^ (E0 + 1) = 10000 * 10 ^ (E0 - 3))
        by (change 10000 with (10 ^ 4); rewrite <- Z.pow_add_r by lia; f_equal; lia).
      assert (0 < 10 ^ (E0 - 3)) by (apply Z.pow_pos_nonneg; lia).
      split.
      + apply round_div_even_bounds; nia.
      + destruct (round_div_even_spec n (q * 10 ^ (E0 - 3))) as [Hb _]; [nia|].
        replace (round_div_even n (q * 10 ^ (E0 - 3)) * 10 ^ (E0 - 3) * q)
          with (round_div_even n (q * 10 ^ (E0 - 3)) * (q * 10 ^ (E0 - 3))) by ring.
        rewrite (Z.mul_comm (10 ^ (E0 - 3)) q). exact Hb. }
  set (M0 := if 0 <=? 3 - E0 then _ else _) in *.
  destruct H0 as [HM HC].
  destruct (Z.eqb_spec M0 (10 ^ (3 + 1))) as [Heq|Hne]; cbn [fst snd].
  - split; [change (10 ^ 3) with 1000; lia|].
    change (10 ^ (3 + 1)) with 10000 in Heq. rewrite Heq in HC.
    unfold sci_close in *. change (10 ^ 3) with 1000.
    destruct (Z.le_gt_cases E0 2).
    + rewrite Z.max_r in * by lia.
      replace (E0 + 1 - 3 + (3 - (E0 + 1))) with 0 by lia.
      replace (E0 - 3 + (3 - E0)) with 0 in HC by lia.
      replace (3 - E0) with (Z.succ (3 - (E0 + 1))) in HC by lia.
      rewrite Z.pow_succ_r in HC by lia.
      assert (0 <= 10 ^ (3 - (E0 + 1))) by (apply Z.pow_nonneg; lia).
      change (10 ^ 0) with 1 in *.
      set (y := 1000 * 1 * q - n * 10 ^ (3 - (E0 + 1))).
      replace (2 * (10000 * 1 * q - n * (10 * 10 ^ (3 - (E0 + 1)))))
        with (10 * (2 * y)) in HC by (unfold y; ring).
      rewrite Z.abs_mul in HC. change (Z.abs 10) with 10 in HC. lia.
    + rewrite Z.max_l in * by lia. rewrite Z.add_0_r in *. rewrite Z.pow_0_r, Z.mul_1_r in *.
      replace (E0 + 1 - 3) with (Z.succ (E0 - 3)) by lia.
      rewrite Z.pow_succ_r by lia.
      assert (0 < 10 ^ (E0 - 3)) by (apply Z.pow_pos_nonneg; lia).
      replace (1000 * (10 * 10 ^ (E0 - 3)) * q) with (10000 * 10 ^ (E0 - 3) * q) by ring.
      nia.
  - change (10 ^ (3 + 1)) with 10000 in Hne. split; [lia | exact HC].
Qed.

Lemma frac_of_num_pos (m : positive) (e : Z) : 0 < fst (frac_of m e).
Proof.
  unfold frac_of. destruct (Z.leb_spec 0 e); cbn [fst].
  - apply Z.mul_pos_pos; [lia | apply Z.pow_pos_nonneg; lia].
  - lia.
Qed.

(** ** The normalised mantissa of the scientific rendering *)

(** For every nonzero finite value the ['.3e'] rendering is
    [sign d.ddd e±XX] with a leading digit from 1 to 9: the four mantissa
    digits read as an integer [M] with [1000 <= M < 10000], and
    [M * 10^(E-3)] is [abs(value)] rounded to the nearest multiple of
    [10^(E-3)] (within half of it). *)
Theorem py_format_sci_normalized (s : bool) (m : positive) (e : Z) :
  let '(n, q) := frac_of m e in
  let '(M, E) := sci_parts 3 n q in
  1000 <= M < 10000 /\ sci_close M E n q /\
  exists c frac,
    is_digit c = true /\ c <> "0"%char /\ all_digits frac = true /\ String.length frac = 3%nat /\
    read_digits (String c frac) 0 0 = (M, 4, "") /\
    py_format_sci 3 (S754_finite s m e)
    = Ok (sign_str s ++ str1 c ++ "." ++ frac ++ "e" ++ (if E <? 0 then "-" else "+") ++
          zpad 2 (Z_to_dec (Z.abs E))).
Proof.
  unfold py_format_sci. rewrite check_precision_ok by lia. cbn [bind].
  pose proof (frac_of_pos m e) as Hnq. pose proof (frac_of_num_pos m e) as Hn.
  destruct (frac_of m e) as [n q]. cbn [fst snd] in Hnq, Hn.
  destruct (sci_parts_spec n q ltac:(lia) ltac:(lia)) as [HM HC].
  destruct (sci_parts 3 n q) as [M E]. cbn [fst snd] in HM, HC.
  split; [exact HM|]. split; [exact HC|].
  destruct (Z_to_dec_read M ltac:(lia)) as (k & Hk & Hr).
  pose proof (Z_to_dec_all_digits M ltac:(lia)) as Hd.
  destruct (read_digits_all (Z_to_dec M) 0 0 Hd) as (v & Hv & Hr').
  rewrite Hr in Hr'. injection Hr' as HMv Hlen.
  assert (Hl4 : String.length (Z_to_dec M) = 4%nat).
  { assert (String.length (Z_to_dec M) <= Z.to_nat 4)%nat
      by (apply Z_to_dec_length_le; [change (10 ^ 4) with 10000; lia | lia]).
    destruct (Nat.le_gt_cases 4 (String.length (Z_to_dec M))) as [|Hlt]; [simpl in *; lia|].
    exfalso.
    assert (10 ^ Z.of_nat (String.length (Z_to_dec M)) <= 10 ^ 3)
      by (apply Z.pow_le_mono_r; lia).
    change (10 ^ 3) with 1000 in *. lia. }
  assert (Hz : zpad (3 + 1) (Z_to_dec M) = Z_to_dec M)
    by (unfold zpad; rewrite Hl4; reflexivity).
  unfold sci_digits. rewrite Hz.
  destruct (Z_to_dec M) as [|c frac] eqn:HD; [discriminate|].
  cbn [all_digits String.length] in Hd, Hl4. apply andb_true_iff in Hd as [Hc Hfr].
  exists c, frac. split; [exact Hc|].
  split.
  - intros ->. change (read_digits (String "0"%char frac) 0 0) with (read_digits frac 0 1) in Hr.
    destruct (read_digits_all frac 0 1 Hfr) as (v' & Hv' & Hr2).
    rewrite Hr2 in Hr. injection Hr as HM' _. assert (Hf3 : String.length frac = 3%nat) by lia. rewrite Hf3 in Hv'.
    change (10 ^ Z.of_nat 3) with 1000 in Hv'. lia.
  - split; [exact Hfr|]. split; [lia|]. split.
    + rewrite Hr. cbn [String.length] in Hlen. f_equal. f_equal. lia.
    + reflexivity.
Qed.
